(** * finalv1.py: conveyor measurement cycle -- serial protocol, measurement
      parser, crop and the per-sample loop.

    The development embeds [src/finalv1.py] function by function.

    - Text is ASCII ([string]); the wire protocol is ASCII and
      [decode(errors='ignore')] is taken to have happened already.
    - The wall clock is an integer number of milliseconds; a timeout of
      [t] seconds is [t * 1000] ticks.
    - A Python float produced by [float()] is represented by the exact
      rational value of the decimal text, in lowest terms.  CPython rounds
      that value to binary64; the rounding is a function of the value, so
      equal rationals here are equal floats there.
    - [print] output is not part of the model. *)

From Stdlib Require Import ZArith QArith Qreduction List String Ascii Bool Lia.
From Stdlib Require Import DecimalString.
Import ListNotations.

Open Scope string_scope.
Open Scope Z_scope.

(** ** Python [str] primitives used by the source *)

Module Py.

(** [ch.isspace()] on ASCII: TAB, LF, VT, FF, CR, FS, GS, RS, US, SPACE. *)
Definition isspace (c : ascii) : bool :=
  let n := nat_of_ascii c in
  ((9 <=? n) && (n <=? 13))%nat || ((28 <=? n) && (n <=? 32))%nat.

(** [ch.isdigit()] on ASCII. *)
Definition isdigit (c : ascii) : bool :=
  let n := nat_of_ascii c in
  ((48 <=? n) && (n <=? 57))%nat.

Fixpoint lstrip (s : string) : string :=
  match s with
  | EmptyString => EmptyString
  | String c r => if isspace c then lstrip r else s
  end.

Fixpoint rstrip (s : string) : string :=
  match s with
  | EmptyString => EmptyString
  | String c r =>
      match rstrip r with
      | EmptyString => if isspace c then EmptyString else String c EmptyString
      | r' => String c r'
      end
  end.

(** [s.strip()] *)
Definition strip (s : string) : string := rstrip (lstrip s).

(** [s.startswith(p)] *)
Fixpoint startswith (p s : string) : bool :=
  match p, s with
  | EmptyString, _ => true
  | String a p', String b s' => Ascii.eqb a b && startswith p' s'
  | String _ _, EmptyString => false
  end.

(** [s.split()]: maximal runs of non-whitespace characters, in order.
    [cur] is the run being read, kept reversed. *)
Fixpoint split_go (cur : list ascii) (s : string) : list string :=
  let flush (k : list string) :=
    match cur with
    | [] => k
    | _ => string_of_list_ascii (rev cur) :: k
    end in
  match s with
  | EmptyString => flush []
  | String c r =>
      if isspace c then flush (split_go [] r) else split_go (c :: cur) r
  end.

Definition split (s : string) : list string := split_go [] s.

(** [s.split(sep, 1)[1]] for a one-character [sep]: the text after the first
    occurrence of [sep]; [None] stands for the [IndexError] raised when [sep]
    does not occur. *)
Fixpoint split1_snd (sep : ascii) (s : string) : option string :=
  match s with
  | EmptyString => None
  | String c r => if Ascii.eqb c sep then Some r else split1_snd sep r
  end.

(** [s.lower()] on ASCII. *)
Definition lower_char (c : ascii) : ascii :=
  let n := nat_of_ascii c in
  if ((65 <=? n) && (n <=? 90))%nat then ascii_of_nat (n + 32) else c.

Fixpoint lower (s : string) : string :=
  match s with
  | EmptyString => EmptyString
  | String c r => String (lower_char c) (lower r)
  end.

(** Keeps the characters of [s] that satisfy [f], in order. *)
Fixpoint keep (f : ascii -> bool) (s : string) : string :=
  match s with
  | EmptyString => EmptyString
  | String c r => if f c then String c (keep f r) else keep f r
  end.

(** Value of a run of decimal digits read most significant first;
    [None] when a character is not a digit. *)
Fixpoint digits_value (acc : Z) (s : string) : option Z :=
  match s with
  | EmptyString => Some acc
  | String c r =>
      if isdigit c
      then digits_value (10 * acc + Z.of_nat (nat_of_ascii c - 48)) r
      else None
  end.

(** The text before and after the first ['.'] (the second is empty when
    there is none). *)
Fixpoint cut_point (s : string) : string * string :=
  match s with
  | EmptyString => (EmptyString, EmptyString)
  | String c r =>
      if Ascii.eqb c "." then (EmptyString, r)
      else let (a, b) := cut_point r in (String c a, b)
  end.

(** [float(s)] for [s] over the alphabet [-.0-9], the only strings
    [_extract_number] passes to it: an optional single minus sign, then
    digits with at most one decimal point and at least one digit.  [None]
    stands for [ValueError]. *)
Definition float (s : string) : option Q :=
  let (neg, body) :=
    match s with
    | String "-" r => (true, r)
    | _ => (false, s)
    end in
  let (ip, fp) := cut_point body in
  if ((String.length ip =? 0) && (String.length fp =? 0))%nat then None
  else
    match digits_value 0 ip, digits_value 0 fp with
    | Some a, Some b =>
        let scale := 10 ^ Z.of_nat (String.length fp) in
        let num := a * scale + b in
        Some (Qred ((if neg then - num else num) # Z.to_pos scale))
    | _, _ => None
    end.

End Py.

(** ** The measurement parser *)

(** [_extract_number] (lines 89-102). *)
Definition is_num_char (ch : ascii) : bool :=
  Py.isdigit ch || Ascii.eqb ch "." || Ascii.eqb ch "-".

Definition _extract_number (token : string) : option Q :=
  let token := Py.strip token in
  let num_chars := Py.keep is_num_char token in
  match num_chars with
  | EmptyString => None
  | _ => Py.float num_chars
  end.

(** The three local variables [weight], [temp_c], [hum_pct] of
    [read_measurement]. *)
Record Meas : Type := mkMeas {
  weight : option Q;
  temp_c : option Q;
  hum_pct : option Q
}.

Definition no_meas : Meas := mkMeas None None None.

(** Body of the [for p in parts] loop (lines 135-150).  [None] is an
    exception escaping to the enclosing [except Exception]. *)
Definition update_part (m : Meas) (p : string) : option Meas :=
  let p := Py.strip p in
  if Py.startswith "W=" p then
    match Py.split1_snd "=" p with
    | None => None
    | Some val =>
        match _extract_number val with
        | Some w => Some (mkMeas (Some w) (temp_c m) (hum_pct m))
        | None => Some m
        end
    end
  else if Py.startswith "T=" p then
    match Py.split1_snd "=" p with
    | None => None
    | Some val =>
        match _extract_number val with
        | Some t => Some (mkMeas (weight m) (Some t) (hum_pct m))
        | None => Some m
        end
    end
  else if Py.startswith "H=" p then
    match Py.split1_snd "=" p with
    | None => None
    | Some val =>
        match _extract_number val with
        | Some h => Some (mkMeas (weight m) (temp_c m) (Some h))
        | None => Some m
        end
    end
  else Some m.

(** The [for] loop inside [try] (lines 132-152): an exception abandons the
    remaining parts and keeps the assignments made so far. *)
Fixpoint for_parts (m : Meas) (parts : list string) : Meas :=
  match parts with
  | [] => m
  | p :: ps =>
      match update_part m p with
      | Some m' => for_parts m' ps
      | None => m
      end
  end.

(** Lines 129-152 for one stripped, non-empty [line]. *)
Definition on_line (m : Meas) (line : string) : Meas :=
  if Py.startswith "MEASURED" line
  then for_parts m (tl (Py.split line))
  else m.

(** ** Frames and the crop *)

(** A BGR pixel and a frame as rows of pixels ([img.shape[:2]] is
    (number of rows, length of a row)). *)
Definition Pixel : Type := (Z * Z * Z)%type.
Definition Frame : Type := list (list Pixel).
Definition Plane : Type := list (list Z).

Definition frame_h (img : Frame) : Z := Z.of_nat (List.length img).
Definition frame_w (img : Frame) : Z := Z.of_nat (List.length (hd [] img)).

(** [l[lo:hi]] for [0 <= lo] and [0 <= hi]. *)
Definition slice {A : Type} (lo hi : Z) (l : list A) : list A :=
  firstn (Z.to_nat (hi - lo)) (skipn (Z.to_nat lo) l).

(** The CONFIG block (lines 8-34). *)
Record Config : Type := mkConfig {
  FOCUS_WAIT_SECONDS_ms : Z;
  WARMUP_FRAMES : nat;
  SAVE_RAW : bool;
  SAVE_ENHANCED : bool;
  RAW_DIR : string;
  ENH_DIR : string;
  ENABLE_CROP : bool;
  CROP_X : Z;
  CROP_Y : Z;
  CROP_W : Z;
  CROP_H : Z
}.

Definition source_config : Config :=
  mkConfig 1000 5 true true "raw_images" "enhanced_images"
           false 640 360 2048 1344.

(** [apply_crop] (lines 205-218). *)
Definition apply_crop (cfg : Config) (img : Frame) : Frame :=
  if negb (ENABLE_CROP cfg) then img
  else
    let h := frame_h img in
    let w := frame_w img in
    let x := Z.max 0 (CROP_X cfg) in
    let y := Z.max 0 (CROP_Y cfg) in
    let x2 := Z.min w (x + CROP_W cfg) in
    let y2 := Z.min h (y + CROP_H cfg) in
    if (x2 <=? x) || (y2 <=? y) then img
    else map (slice x x2) (slice y y2 img).

(** ** The environment: clock, serial link, camera, files *)

Record CsvRow : Type := mkRow {
  row_sample_idx : Z;
  row_timestamp : string;
  row_raw_path : string;
  row_enh_path : string;
  row_weight_g : option Q;
  row_temp_c : option Q;
  row_humidity_pct : option Q
}.

Inductive CsvLine : Type :=
| Header
| Data (r : CsvRow).

(** - [clock]: [time.time()], in milliseconds.
    - [rx]: the lines the board will have sent, each with the time its last
      byte reaches the host and its text as decoded (terminator included).
    - [tx]: every byte written to the port so far, in order.
    - [port_ok]: whether [serial.Serial(...)] succeeds.
    - [cam_opened]: [cap.isOpened()]; [cam]: what the successive
      [cap.read()] calls return ([None] is [ret == False]).
    - [csv]: the lines of the CSV log, [None] while the file does not exist.
    - [files]: the images handed to [cv2.imwrite], with their paths. *)
Record World : Type := mkWorld {
  clock : Z;
  rx : list (Z * string);
  tx : string;
  port_ok : bool;
  cam_opened : bool;
  cam : list (option Frame);
  csv : option (list CsvLine);
  files : list (string * Frame)
}.

Definition set_clock (c : Z) (w : World) : World :=
  mkWorld c (rx w) (tx w) (port_ok w) (cam_opened w) (cam w) (csv w) (files w).
Definition set_rx (l : list (Z * string)) (w : World) : World :=
  mkWorld (clock w) l (tx w) (port_ok w) (cam_opened w) (cam w) (csv w) (files w).
Definition set_tx (s : string) (w : World) : World :=
  mkWorld (clock w) (rx w) s (port_ok w) (cam_opened w) (cam w) (csv w) (files w).
Definition set_cam (l : list (option Frame)) (w : World) : World :=
  mkWorld (clock w) (rx w) (tx w) (port_ok w) (cam_opened w) l (csv w) (files w).
Definition set_csv (l : option (list CsvLine)) (w : World) : World :=
  mkWorld (clock w) (rx w) (tx w) (port_ok w) (cam_opened w) (cam w) l (files w).
Definition set_files (l : list (string * Frame)) (w : World) : World :=
  mkWorld (clock w) (rx w) (tx w) (port_ok w) (cam_opened w) (cam w) (csv w) l.

(** The port is opened with [timeout=2] (line 64). *)
Definition SER_TIMEOUT : Z := 2000.

(** [time.sleep] *)
Definition sleep (ms : Z) (w : World) : World := set_clock (clock w + ms) w.

(** [ser.write] *)
Definition ser_write (b : string) (w : World) : World := set_tx (tx w ++ b) w.

(** [ser.readline().decode(errors='ignore')]: the next line if it is
    buffered or completes within the port timeout, otherwise the empty
    string once the port timeout has passed. *)
Definition readline (w : World) : string * World :=
  match rx w with
  | (t, raw) :: rest =>
      if t <=? clock w + SER_TIMEOUT
      then (raw, set_rx rest (set_clock (Z.max (clock w) t) w))
      else (EmptyString, sleep SER_TIMEOUT w)
  | [] => (EmptyString, sleep SER_TIMEOUT w)
  end.

(** [ser.in_waiting] as a truth value: a line is already buffered. *)
Definition in_waiting (w : World) : bool :=
  match rx w with
  | (t, _) :: _ => t <=? clock w
  | [] => false
  end.

(** [cap.read()] *)
Definition cap_read (w : World) : option Frame * World :=
  match cam w with
  | f :: rest => (f, set_cam rest w)
  | [] => (None, w)
  end.

(** [cv2.imwrite] *)
Definition imwrite (path : string) (img : Frame) (w : World) : World :=
  set_files (files w ++ [(path, img)])%list w.

(** Appending one row to the CSV log (lines 335-345); mode ["a"] creates
    the file when it is missing. *)
Definition csv_append (r : CsvRow) (w : World) : World :=
  set_csv (Some (match csv w with Some l => l | None => [] end ++ [Data r])%list) w.

(** ** The two bounded waits *)

(** The [while True] loop of [wait_for_arduino] (lines 78-86); [fuel]
    bounds the number of iterations, [None] is fuel exhausted. *)
Fixpoint wait_loop (fuel : nat) (w : World) (start : Z)
         (expected_msg : string) (timeout : Z) : option (bool * World) :=
  match fuel with
  | O => None
  | S fuel' =>
      if timeout * 1000 <? clock w - start then Some (false, w)
      else
        let (raw, w1) := readline w in
        let line := Py.strip raw in
        if String.eqb line expected_msg then Some (true, w1)
        else wait_loop fuel' w1 start expected_msg timeout
  end.

(** [wait_for_arduino] (lines 75-86). *)
Definition wait_for_arduino (fuel : nat) (w : World) (expected_msg : string)
           (timeout : Z) : option (bool * World) :=
  let start := clock w in
  wait_loop fuel w start expected_msg timeout.

(** The [while True] loop of [read_measurement] (lines 118-157). *)
Fixpoint measure_loop (fuel : nat) (w : World) (start timeout : Z)
         (m : Meas) : option (Meas * World) :=
  match fuel with
  | O => None
  | S fuel' =>
      if timeout * 1000 <? clock w - start then Some (no_meas, w)
      else
        let (raw, w1) := readline w in
        let line := Py.strip raw in
        if String.eqb line EmptyString
        then measure_loop fuel' w1 start timeout m
        else
          let m1 := on_line m line in
          if String.eqb line "WEIGH_DONE" then Some (m1, w1)
          else measure_loop fuel' w1 start timeout m1
  end.

(** [read_measurement] (lines 105-157). *)
Definition read_measurement (fuel : nat) (w : World) (timeout : Z)
  : option (Meas * World) :=
  let start := clock w in
  measure_loop fuel w start timeout no_meas.

(** Fuel that always suffices for a wait of [timeout] seconds started in
    [w]: one iteration per pending line, one per silent port timeout, and
    the final check. *)
Definition enough_fuel (w : World) (timeout : Z) : nat :=
  (List.length (rx w) + Z.to_nat (timeout * 1000 / SER_TIMEOUT) + 2)%nat.

(** ** The program *)

Inductive Exn : Type :=
| SerialException
| EOFError.

(** How [main] ends: it returns, or an exception leaves it. *)
Inductive Outcome : Type :=
| Finished (w : World)
| Uncaught (e : Exn) (w : World).

Definition outcome_world (o : Outcome) : World :=
  match o with
  | Finished w => w
  | Uncaught _ w => w
  end.

(** How one pass through the body of the [while True] loop of [main] ends:
    at the [continue] of line 267, or after line 347. *)
Inductive CycleEnd : Type :=
| Skipped
| Recorded.

Inductive ColorCode : Type :=
| COLOR_BGR2LAB
| COLOR_LAB2BGR.

(** [f"{n:03d}"] *)
Definition fmt_03d (n : Z) : string :=
  let sign := if n <? 0 then "-" else "" in
  let digits := NilEmpty.string_of_uint (N.to_uint (Z.abs_N n)) in
  let pad := (3 - String.length sign - String.length digits)%nat in
  sign ++ string_of_list_ascii (repeat "0"%char pad) ++ digits.

Notation "'do' x <- c ; k" :=
  (match c with Some x => k | None => None end)
  (at level 10, x pattern, c at level 100, k at level 200, only parsing).

Section Program.

(** The configuration constants. *)
Variable cfg : Config.

(** OpenCV and the C library are outside the repository: the calls the
    source makes are taken as given functions. *)
Variable cvtColor : Frame -> ColorCode -> Frame.
Variable cv_split : Frame -> Plane * Plane * Plane.
Variable cv_merge : Plane * Plane * Plane -> Frame.
Variable clahe_apply : Q -> nat * nat -> Plane -> Plane.
Variable filter2D : Frame -> Z -> list (list Q) -> Frame.
Variable strftime : string -> Z -> string.
Variable os_path_join : string -> string -> string.

(** [enhance_image_soft] (lines 187-202). *)
Definition enhance_image_soft (img_bgr : Frame) : Frame :=
  let lab := cvtColor img_bgr COLOR_BGR2LAB in
  let '(l, a, b) := cv_split lab in
  let l2 := clahe_apply (15 # 10) (8%nat, 8%nat) l in
  let lab2 := cv_merge (l2, a, b) in
  let enhanced := cvtColor lab2 COLOR_LAB2BGR in
  let kernel := [[0; - (2 # 10); 0];
                 [- (2 # 10); 18 # 10; - (2 # 10)];
                 [0; - (2 # 10); 0]]%Q in
  let sharpened := filter2D enhanced (-1) kernel in
  sharpened.

(** [ensure_csv_log] (lines 46-59). *)
Definition ensure_csv_log (w : World) : World :=
  match csv w with
  | None => set_csv (Some [Header]) w
  | Some _ => w
  end.

(** The [while ser.in_waiting] loop of [init_serial] (lines 68-71): every
    pass reads one buffered line, so the pending lines bound it. *)
Fixpoint flush_loop (n : nat) (w : World) : World :=
  match n with
  | O => w
  | S n' => if in_waiting w then flush_loop n' (snd (readline w)) else w
  end.

(** [init_serial] (lines 62-72); [None] is the exception of a port that
    cannot be opened. *)
Definition init_serial (w : World) : option World :=
  if port_ok w
  then
    let w1 := sleep 2000 w in
    Some (flush_loop (List.length (rx w1)) w1)
  else None.

(** [init_camera] (lines 160-184): [false] is the [None] return. *)
Definition init_camera (w : World) : bool * World :=
  if negb (cam_opened w) then (false, w)
  else
    let (_, w1) := cap_read w in
    (true, w1).

(** The [for _ in range(WARMUP_FRAMES)] loop (lines 274-275). *)
Fixpoint warmup (n : nat) (w : World) : World :=
  match n with
  | O => w
  | S n' => warmup n' (snd (cap_read w))
  end.

(** Lines 284-314: what is done with a frame that was read. *)
Definition save_images (sample_idx : Z) (frame : Frame) (w : World)
  : string * string * World :=
  let ts := strftime "%Y%m%d_%H%M%S" (clock w) in
  let frame_proc := apply_crop cfg frame in
  let '(raw_path, w1) :=
    if SAVE_RAW cfg then
      let raw_name := "sample_" ++ fmt_03d sample_idx ++ "_" ++ ts ++ "_raw.jpg" in
      let raw_path := os_path_join (RAW_DIR cfg) raw_name in
      (raw_path, imwrite raw_path frame_proc w)
    else (EmptyString, w) in
  let '(enh_path, w2) :=
    if SAVE_ENHANCED cfg then
      let enh_frame := enhance_image_soft frame_proc in
      let enh_name := "sample_" ++ fmt_03d sample_idx ++ "_" ++ ts ++ "_enh.jpg" in
      let enh_path := os_path_join (ENH_DIR cfg) enh_name in
      (enh_path, imwrite enh_path enh_frame w1)
    else (EmptyString, w1) in
  (* cv2.waitKey(300) *)
  (raw_path, enh_path, sleep 300 w2).

(** Step 2 of the loop body (lines 269-314): settle, discard the warm-up
    frames, read the frame and save it; returns [raw_path], [enh_path]. *)
Definition capture_image (sample_idx : Z) (w : World)
  : string * string * World :=
  let w := sleep (FOCUS_WAIT_SECONDS_ms cfg) w in
  let w := warmup (WARMUP_FRAMES cfg) w in
  let (ret_frame, w) := cap_read w in
  match ret_frame with
  | None => (EmptyString, EmptyString, w)
  | Some frame => save_images sample_idx frame w
  end.

(** One pass through the loop body after the prompt (lines 261-347);
    returns how the pass ended, the value of [sample_idx] afterwards and
    the world. *)
Definition cycle (fuel : nat) (sample_idx : Z) (w : World)
  : option (CycleEnd * Z * World) :=
  (* 1) move to capture *)
  let w := ser_write "C" w in
  do (ok, w) <- wait_for_arduino fuel w "AT_CAPTURE" 15;
  if negb ok then Some (Skipped, sample_idx, w)
  else
    (* 2) capture image *)
    let '(raw_path, enh_path, w) := capture_image sample_idx w in
    (* 3) move to weigh + read weight/T/H *)
    let w := ser_write "W" w in
    do (m, w) <- read_measurement fuel w 20;
    (* 4) move back home *)
    let w := ser_write "H" w in
    do (_, w) <- wait_for_arduino fuel w "AT_HOME" 15;
    (* 5) log to CSV *)
    let ts_now := strftime "%Y-%m-%d %H:%M:%S" (clock w) in
    let w := csv_append (mkRow sample_idx ts_now raw_path enh_path
                               (weight m) (temp_c m) (hum_pct m)) w in
    Some (Recorded, sample_idx + 1, w).

(** The [while True] loop of [main] (lines 251-347) over the operator's
    answers to [input()]; running out of answers is the [EOFError] that
    [input()] raises at end of input. *)
Fixpoint main_loop (fuel : nat) (inputs : list string) (sample_idx : Z)
         (w : World) : option (Outcome * Z) :=
  match inputs with
  | [] => Some (Uncaught EOFError w, sample_idx)
  | answer :: inputs' =>
      let user_in := Py.lower (Py.strip answer) in
      if String.eqb user_in "q" then Some (Finished w, sample_idx)
      else
        do (_, sample_idx', w') <- cycle fuel sample_idx w;
        main_loop fuel inputs' sample_idx' w'
  end.

(** [main] (lines 221-352).  Directory creation and the release of the
    camera and port handles leave no trace in [World]. *)
Definition main (fuel : nat) (inputs : list string) (w : World)
  : option Outcome :=
  let w := ensure_csv_log w in
  match init_serial w with
  | None => Some (Uncaught SerialException w)
  | Some w =>
      (* initial tare *)
      let w := ser_write "Z" w in
      let w := sleep 500 w in
      do (ok, w) <- wait_for_arduino fuel w "ZERO_DONE" 20;
      let (cap, w) := init_camera w in
      if negb cap then Some (Finished w)
      else
        let sample_idx := 1 in
        do (o, _) <- main_loop fuel inputs sample_idx w;
        Some o
  end.

End Program.

(** ** Specification-side definitions *)

(** Deadline bookkeeping for the two waits: lines still pending plus the
    number of silent port timeouts that fit before [deadline]. *)
Definition slack (w : World) (deadline : Z) : nat :=
  (List.length (rx w) + Z.to_nat ((deadline - clock w) / SER_TIMEOUT + 1))%nat.

(** What the waits leave untouched. *)
Definition same_host (w w' : World) : Prop :=
  tx w' = tx w /\ csv w' = csv w /\ files w' = files w /\ cam w' = cam w
  /\ port_ok w' = port_ok w /\ cam_opened w' = cam_opened w.

(** The stripped text of a received line. *)
Definition text (e : Z * string) : string := Py.strip (snd e).

(** Every character of [s] satisfies [f]. *)
Fixpoint all_chars (f : ascii -> bool) (s : string) : bool :=
  match s with
  | EmptyString => true
  | String c r => f c && all_chars f r
  end.

Definition no_space (s : string) : bool :=
  all_chars (fun c => negb (Py.isspace c)) s.
Definition blank (s : string) : bool := all_chars Py.isspace s.
Definition no_digit (s : string) : bool :=
  all_chars (fun c => negb (Py.isdigit c)) s.

(** A numeral as the wire format writes it: only digits, ['-'] and ['.']. *)
Definition numeral (s : string) : bool := all_chars is_num_char s.

(** [s[n:]] *)
Fixpoint drop (n : nat) (s : string) : string :=
  match n, s with
  | O, _ => s
  | S n', String _ r => drop n' r
  | S _, EmptyString => EmptyString
  end.

(** The measurement record as the specification words it: the union, over
    all [KEY=VALUE] fragments of all [MEASURED] lines in order, of the
    values that parse, the last parsed value of a key winning. *)
Definition fragments (lines : list string) : list string :=
  flat_map (fun line =>
              if Py.startswith "MEASURED" line then tl (Py.split line)
              else []) lines.

Definition readings (key : string) (frags : list string) : list Q :=
  flat_map (fun p =>
              if Py.startswith key p
              then match _extract_number (drop 2 p) with
                   | Some v => [v]
                   | None => []
                   end
              else []) frags.

Definition latest (old : option Q) (l : list Q) : option Q :=
  last (map Some l) old.

Definition union_last_wins (lines : list string) : Meas :=
  let fr := fragments lines in
  mkMeas (latest None (readings "W=" fr))
         (latest None (readings "T=" fr))
         (latest None (readings "H=" fr)).

(** A key as the parser knows it. *)
Definition is_key (key : string) : Prop :=
  key = "W=" \/ key = "T=" \/ key = "H=".

(** Tokens written on one line, a single space between neighbours. *)
Fixpoint join_sp (toks : list string) : string :=
  match toks with
  | [] => EmptyString
  | t :: ts =>
      match ts with
      | [] => t
      | _ => t ++ String " " (join_sp ts)
      end
  end.

(** A token: non-empty and free of white space. *)
Definition token (t : string) : Prop := no_space t = true /\ t <> EmptyString.

(** A unit suffix: characters that are neither numeric nor white space. *)
Definition unit_suffix (u : string) : bool :=
  all_chars (fun c => negb (is_num_char c) && negb (Py.isspace c)) u.

(** The line terminator the board sends. *)
Definition CRLF : string := String "013" (String "010" EmptyString).

(** The rows the CSV log holds, header aside. *)
Definition data_rows (w : World) : list CsvRow :=
  match csv w with
  | Some l => flat_map (fun x => match x with Data r => [r] | Header => [] end) l
  | None => []
  end.

(** [a; a+1; ...; a+n-1] *)
Definition indices_from (a : Z) (n : nat) : list Z :=
  map (fun k => a + Z.of_nat k) (seq 0 n).

(** Whether the weigh command byte was ever written to the port. *)
Definition weigh_attempted (w : World) : bool :=
  existsb (Ascii.eqb "W") (list_ascii_of_string (tx w)).

(** The configured rectangle [CROP_X, CROP_X + CROP_W) x
    [CROP_Y, CROP_Y + CROP_H) has no point in common with the frame. *)
Definition rect_misses_frame (cfg : Config) (img : Frame) : bool :=
  (Z.min (frame_w img) (CROP_X cfg + CROP_W cfg) <=? Z.max 0 (CROP_X cfg))
  || (Z.min (frame_h img) (CROP_Y cfg + CROP_H cfg) <=? Z.max 0 (CROP_Y cfg)).

(** The rectangle as [apply_crop] clamps it is empty: the origin is raised
    to 0 and the far corner is measured from the raised origin. *)
Definition clamped_empty (cfg : Config) (img : Frame) : bool :=
  (Z.min (frame_w img) (Z.max 0 (CROP_X cfg) + CROP_W cfg)
     <=? Z.max 0 (CROP_X cfg))
  || (Z.min (frame_h img) (Z.max 0 (CROP_Y cfg) + CROP_H cfg)
        <=? Z.max 0 (CROP_Y cfg)).

(** What every step of the program preserves: the CSV log is only ever
    touched by [csv_append], and received lines are only ever consumed. *)
Definition keeps (w w' : World) : Prop :=
  csv w' = csv w /\ (List.length (rx w') <= List.length (rx w))%nat.

(** Stand-ins for the library calls, used to run the program on concrete
    inputs: the image operations return their argument, the clock is
    printed as a fixed text, paths are joined with a slash. *)
Module Demo.

Definition cvtColor (f : Frame) (_ : ColorCode) : Frame := f.
Definition cv_split (f : Frame) : Plane * Plane * Plane :=
  (map (map (fun p => fst (fst p))) f,
   map (map (fun p => snd (fst p))) f,
   map (map snd) f).
Definition cv_merge (p : Plane * Plane * Plane) : Frame :=
  let '(l, a, b) := p in
  map (fun rows : list Z * list Z * list Z =>
         let '(rl, ra, rb) := rows in combine (combine rl ra) rb)
      (combine (combine l a) b).
Definition clahe_apply (_ : Q) (_ : nat * nat) (p : Plane) : Plane := p.
Definition filter2D (f : Frame) (_ : Z) (_ : list (list Q)) : Frame := f.
Definition strftime (_ : string) (_ : Z) : string := "ts".
Definition os_path_join (a b : string) : string := a ++ "/" ++ b.

Definition pixel : Pixel := (10, 20, 30).
Definition frame4 : Frame := repeat (repeat pixel 4) 4.

Definition cycle (cfg : Config) :=
  cycle cfg cvtColor cv_split cv_merge clahe_apply filter2D strftime
        os_path_join.
Definition main (cfg : Config) :=
  main cfg cvtColor cv_split cv_merge clahe_apply filter2D strftime
       os_path_join.
Definition save_images (cfg : Config) :=
  save_images cfg cvtColor cv_split cv_merge clahe_apply filter2D strftime
              os_path_join.
Definition enhance_image_soft :=
  enhance_image_soft cvtColor cv_split cv_merge clahe_apply filter2D.


(** A crop rectangle lying wholly to the left of any frame, and one lying
    wholly to the right of a frame four pixels wide. *)
Definition cfg_left : Config :=
  mkConfig 1000 5 true true "raw_images" "enhanced_images" true (-3) 0 2 4.
Definition cfg_right : Config :=
  mkConfig 1000 5 true true "raw_images" "enhanced_images" true 10 0 2 4.

(** A board that never reports [AT_CAPTURE] but goes on to send a
    measurement. *)
Definition world_no_capture_ack : World :=
  mkWorld 0 [(1000, "homing" ++ CRLF);
             (16000, "MEASURED W=1.0g T=20.0C H=50.0%" ++ CRLF);
             (16500, "WEIGH_DONE" ++ CRLF)]
          "" true true [Some frame4] None [].

(** A board that answers every command of two cycles; the second cycle
    gets no measurement and no [AT_HOME]. *)
Definition world_two_cycles : World :=
  mkWorld 0 [(100, "BOOT OK" ++ CRLF);
             (3000, "ZERO_DONE" ++ CRLF);
             (4000, "AT_CAPTURE" ++ CRLF);
             (6000, "MEASURED W=12.3g T=25.0C H=40.1%" ++ CRLF);
             (6500, "WEIGH_DONE" ++ CRLF);
             (7000, "AT_HOME" ++ CRLF);
             (9000, "AT_CAPTURE" ++ CRLF)]
          "" true true (repeat (Some frame4) 12) None [].

End Demo.

(** ** Further definitions used to state properties of the code *)

(** Occurrences of [c] in [s]. *)
Fixpoint count_char (c : ascii) (s : string) : nat :=
  match s with
  | EmptyString => O
  | String d r => ((if Ascii.eqb d c then 1 else 0) + count_char c r)%nat
  end.

(** The bytes one pass of the loop writes to the port. *)
Definition cycle_bytes (e : CycleEnd) : string :=
  match e with
  | Skipped => "C"
  | Recorded => "CWH"
  end.

Fixpoint commands (ends : list CycleEnd) : string :=
  match ends with
  | [] => EmptyString
  | e :: es => cycle_bytes e ++ commands es
  end.

Definition is_recorded (e : CycleEnd) : bool :=
  match e with
  | Recorded => true
  | Skipped => false
  end.

(** Every row of the frame is as long as the first, as in an array. *)
Definition rectangular (img : Frame) : Prop :=
  Forall (fun row => List.length row = List.length (hd [] img)) img.

(** The paths [cv2.imwrite] was given. *)
Definition written_paths (w : World) : list string := map fst (files w).

(** The image paths a row names, if any, are among those of [new]. *)
Definition paths_in (new : list (string * Frame)) (r : CsvRow) : Prop :=
  (row_raw_path r = EmptyString \/ In (row_raw_path r) (map fst new))
  /\ (row_enh_path r = EmptyString \/ In (row_enh_path r) (map fst new)).

(** The lines of the log once [ensure_csv_log] has run. *)
Definition log_base (w : World) : list CsvLine :=
  match csv w with
  | Some l => l
  | None => [Header]
  end.

(** A line without its terminator, as the specification words it: the
    carriage returns and line feeds at its end removed, nothing else. *)
Definition is_eol (c : ascii) : bool :=
  Ascii.eqb c "010" || Ascii.eqb c "013".

Fixpoint strip_eol (s : string) : string :=
  match s with
  | EmptyString => EmptyString
  | String c r =>
      match strip_eol r with
      | EmptyString => if is_eol c then EmptyString else String c EmptyString
      | r' => String c r'
      end
  end.

(** ** Facts about the serial link *)

Lemma same_host_refl w : same_host w w.
Proof. repeat split. Qed.

Lemma same_host_trans w1 w2 w3 :
  same_host w1 w2 -> same_host w2 w3 -> same_host w1 w3.
Proof.
  unfold same_host. intros (a1 & a2 & a3 & a4 & a5 & a6) (b1 & b2 & b3 & b4 & b5 & b6).
  repeat split; congruence.
Qed.

Lemma readline_host w raw w1 : readline w = (raw, w1) -> same_host w w1.
Proof.
  unfold readline. destruct (rx w) as [|[t r] rest].
  - intros H; inversion H; subst. repeat split.
  - destruct (t <=? clock w + SER_TIMEOUT); intros H; inversion H; subst;
      repeat split.
Qed.

Lemma readline_clock w raw w1 :
  readline w = (raw, w1) -> clock w <= clock w1 <= clock w + SER_TIMEOUT.
Proof.
  unfold readline, SER_TIMEOUT. destruct (rx w) as [|[t r] rest].
  - intros H; inversion H; subst; simpl. lia.
  - destruct (Z.leb_spec t (clock w + 2000)) as [Ht|Ht]; intros H;
      inversion H; subst; simpl; lia.
Qed.

Lemma readline_rx w raw w1 :
  readline w = (raw, w1) ->
  (raw = EmptyString /\ rx w1 = rx w /\ clock w1 = clock w + SER_TIMEOUT
   /\ match rx w with
      | [] => True
      | (t, _) :: _ => clock w + SER_TIMEOUT < t
      end)
  \/ (exists t, rx w = (t, raw) :: rx w1 /\ t <= clock w + SER_TIMEOUT
                /\ clock w1 = Z.max (clock w) t).
Proof.
  unfold readline. destruct (rx w) as [|[t r] rest] eqn:E.
  - intros H; inversion H; subst; simpl. left. rewrite E. auto.
  - destruct (Z.leb_spec t (clock w + SER_TIMEOUT)) as [Ht|Ht]; intros H;
      inversion H; subst; simpl.
    + right. exists t. auto.
    + left. rewrite E. auto.
Qed.

Lemma readline_slack w raw w1 D :
  readline w = (raw, w1) -> clock w <= D -> (slack w1 D < slack w D)%nat.
Proof.
  intros R HD. unfold slack.
  pose proof (readline_clock _ _ _ R) as C.
  destruct (readline_rx _ _ _ R) as [(_ & E & K & _) | (t & E & _)].
  - rewrite E, K. unfold SER_TIMEOUT.
    replace (D - (clock w + 2000)) with ((D - clock w) + (-1) * 2000) by lia.
    rewrite Z.div_add by lia.
    assert (0 <= (D - clock w) / 2000) by (apply Z.div_pos; lia).
    lia.
  - rewrite E. simpl.
    assert ((D - clock w1) / SER_TIMEOUT <= (D - clock w) / SER_TIMEOUT).
    { apply Z.div_le_mono; unfold SER_TIMEOUT; lia. }
    lia.
Qed.

Lemma slack_start w T :
  (slack w (clock w + T * 1000) < enough_fuel w T)%nat.
Proof.
  unfold slack, enough_fuel.
  replace (clock w + T * 1000 - clock w) with (T * 1000) by lia.
  lia.
Qed.

(** ** The acknowledgment wait *)

Lemma wait_loop_spec fuel : forall w start expected T,
  expected <> EmptyString ->
  (slack w (start + T * 1000) < fuel)%nat ->
  exists b w' seen,
    wait_loop fuel w start expected T = Some (b, w')
    /\ rx w = (seen ++ rx w')%list
    /\ same_host w w'
    /\ clock w <= clock w'
    /\ (if b
        then exists pre last, seen = (pre ++ [last])%list
             /\ text last = expected
             /\ Forall (fun e => text e <> expected) pre
        else Forall (fun e => text e <> expected) seen
             /\ T * 1000 < clock w' - start).
Proof.
  induction fuel as [|fuel IH]; intros w start expected T Hne Hs; [lia|].
  simpl. destruct (Z.ltb_spec (T * 1000) (clock w - start)) as [Hlate|Hok].
  - exists false, w, []. repeat split; auto; lia.
  - destruct (readline w) as [raw w1] eqn:R.
    pose proof (readline_host _ _ _ R) as Hh.
    pose proof (readline_clock _ _ _ R) as Hc.
    assert (Hs1 : (slack w1 (start + T * 1000) < fuel)%nat).
    { pose proof (readline_slack _ _ _ (start + T * 1000) R). lia. }
    destruct (String.eqb_spec (Py.strip raw) expected) as [Heq|Hneq].
    + destruct (readline_rx _ _ _ R) as [(E0 & _) | (t & E & _)].
      * subst raw. compute in Heq. congruence.
      * exists true, w1, [(t, raw)].
        refine (conj eq_refl (conj E (conj Hh (conj (proj1 Hc) _)))).
        exists [], (t, raw). repeat split; auto.
    + destruct (IH w1 start expected T Hne Hs1)
        as (b & w' & seen & Hrun & Hrx & Hh' & Hc' & Hres).
      pose proof (same_host_trans _ _ _ Hh Hh') as Hh2.
      assert (Hc2 : clock w <= clock w') by lia.
      destruct (readline_rx _ _ _ R) as [(E0 & E & _) | (t & E & _)].
      * exists b, w', seen. rewrite <- E.
        exact (conj Hrun (conj Hrx (conj Hh2 (conj Hc2 Hres)))).
      * exists b, w', ((t, raw) :: seen).
        refine (conj Hrun (conj _ (conj Hh2 (conj Hc2 _)))).
        -- rewrite E, Hrx. reflexivity.
        -- destruct b.
           ++ destruct Hres as (pre & last & Hseen & Hlast & Hpre).
              exists ((t, raw) :: pre), last. rewrite Hseen.
              repeat split; auto.
           ++ destruct Hres as (Hall & Hlate). split; auto.
Qed.

(** ** The measurement wait *)

Lemma on_line_done m : on_line m "WEIGH_DONE" = m.
Proof. reflexivity. Qed.

Lemma on_line_empty m : on_line m EmptyString = m.
Proof. reflexivity. Qed.

(** The reader always returns, leaves the host side alone and only
    consumes received lines. *)
Lemma measure_loop_total fuel : forall w start T m,
  (slack w (start + T * 1000) < fuel)%nat ->
  exists m' w',
    measure_loop fuel w start T m = Some (m', w')
    /\ same_host w w'
    /\ (List.length (rx w') <= List.length (rx w))%nat
    /\ clock w <= clock w'.
Proof.
  induction fuel as [|fuel IH]; intros w start T m Hs; [lia|].
  simpl. destruct (Z.ltb_spec (T * 1000) (clock w - start)) as [Hlate|Hok].
  - exists no_meas, w. repeat split; auto; lia.
  - destruct (readline w) as [raw w1] eqn:R.
    pose proof (readline_host _ _ _ R) as Hh.
    pose proof (readline_clock _ _ _ R) as Hc.
    assert (Hs1 : (slack w1 (start + T * 1000) < fuel)%nat).
    { pose proof (readline_slack _ _ _ (start + T * 1000) R). lia. }
    assert (Hlen : (List.length (rx w1) <= List.length (rx w))%nat).
    { destruct (readline_rx _ _ _ R) as [(_ & E & _) | (t & E & _)];
        rewrite E; simpl; lia. }
    assert (Hrec : forall m0, exists m' w',
               measure_loop fuel w1 start T m0 = Some (m', w')
               /\ same_host w w'
               /\ (List.length (rx w') <= List.length (rx w))%nat
               /\ clock w <= clock w').
    { intros m0. destruct (IH w1 start T m0 Hs1) as (m' & w' & A & B & C & D).
      exists m', w'. repeat split; try lia; auto;
        apply (same_host_trans _ _ _ Hh B). }
    destruct (String.eqb (Py.strip raw) EmptyString); [apply Hrec|].
    destruct (String.eqb (Py.strip raw) "WEIGH_DONE"); [|apply Hrec].
    exists (on_line m (Py.strip raw)), w1. repeat split; auto; try lia;
      apply Hh.
Qed.

(** When no terminating line can be read before the deadline, the reader
    gives up with all three fields absent, whatever it had accumulated. *)
Lemma measure_loop_timeout fuel : forall w start T m pre rest,
  rx w = (pre ++ rest)%list ->
  Forall (fun e => text e <> "WEIGH_DONE") pre ->
  Forall (fun e => start + T * 1000 + SER_TIMEOUT < fst e) rest ->
  clock w - start <= T * 1000 + SER_TIMEOUT ->
  (slack w (start + T * 1000) < fuel)%nat ->
  exists w',
    measure_loop fuel w start T m = Some (no_meas, w')
    /\ T * 1000 < clock w' - start <= T * 1000 + SER_TIMEOUT.
Proof.
  induction fuel as [|fuel IH]; intros w start T m pre rest Hrx Hpre Hrest Hin Hs;
    [lia|].
  simpl. destruct (Z.ltb_spec (T * 1000) (clock w - start)) as [Hlate|Hok].
  - exists w. split; auto.
  - destruct (readline w) as [raw w1] eqn:R.
    pose proof (readline_clock _ _ _ R) as Hc.
    assert (Hs1 : (slack w1 (start + T * 1000) < fuel)%nat).
    { pose proof (readline_slack _ _ _ (start + T * 1000) R). lia. }
    assert (Hin1 : clock w1 - start <= T * 1000 + SER_TIMEOUT) by lia.
    destruct (readline_rx _ _ _ R) as [(E0 & E & _) | (t & E & Ht & _)].
    + subst raw. change (Py.strip EmptyString) with EmptyString.
      simpl String.eqb. cbv iota.
      apply (IH w1 start T m pre rest); auto. congruence.
    + destruct pre as [|e pre'].
      * simpl in Hrx. rewrite <- Hrx, E in Hrest.
        apply Forall_inv in Hrest. simpl in Hrest. lia.
      * simpl in Hrx. rewrite Hrx in E. inversion E; subst e.
        pose proof (Forall_inv Hpre) as Hne.
        pose proof (Forall_inv_tail Hpre) as Hpre'.
        unfold text in Hne. simpl in Hne.
        destruct (String.eqb (Py.strip raw) EmptyString).
        -- apply (IH w1 start T m pre' rest); auto.
        -- destruct (String.eqb_spec (Py.strip raw) "WEIGH_DONE");
             [contradiction|].
           apply (IH w1 start T _ pre' rest); auto.
Qed.

(** When the terminating line and everything before it arrive by the
    deadline, the reader folds [on_line] over the lines before it. *)
Lemma measure_loop_done fuel : forall w start T m pre t raw rest,
  rx w = (pre ++ (t, raw) :: rest)%list ->
  Forall (fun e => text e <> "WEIGH_DONE" /\ fst e <= start + T * 1000) pre ->
  Py.strip raw = "WEIGH_DONE" ->
  t <= start + T * 1000 ->
  clock w <= start + T * 1000 ->
  (slack w (start + T * 1000) < fuel)%nat ->
  exists w',
    measure_loop fuel w start T m
    = Some (fold_left on_line (map text pre) m, w')
    /\ rx w' = rest /\ same_host w w' /\ clock w' <= start + T * 1000.
Proof.
  induction fuel as [|fuel IH];
    intros w start T m pre t raw rest Hrx Hpre Hraw Ht Hclk Hs; [lia|].
  simpl. destruct (Z.ltb_spec (T * 1000) (clock w - start)) as [Hlate|Hok];
    [lia|].
  destruct (readline w) as [raw0 w1] eqn:R.
  pose proof (readline_host _ _ _ R) as Hh.
  assert (Hs1 : (slack w1 (start + T * 1000) < fuel)%nat).
  { pose proof (readline_slack _ _ _ (start + T * 1000) R). lia. }
  destruct (readline_rx _ _ _ R) as [(E0 & E & K & Hnext) | (t0 & E & Ht0 & K)].
  - subst raw0. change (Py.strip EmptyString) with EmptyString.
    simpl String.eqb. cbv iota.
    assert (Hclk1 : clock w1 <= start + T * 1000).
    { rewrite Hrx in Hnext. destruct pre as [|[t1 r1] pre']; simpl in Hnext.
      - lia.
      - apply Forall_inv in Hpre. simpl in Hpre. lia. }
    destruct (IH w1 start T m pre t raw rest) as (w' & A & B & C & D); auto.
    { congruence. }
    exists w'. repeat split; auto; apply (same_host_trans _ _ _ Hh C).
  - destruct pre as [|e pre'].
    + simpl in Hrx. rewrite Hrx in E. inversion E; subst t0 raw0.
      rewrite Hraw. simpl String.eqb. cbv iota.
      exists w1. simpl. rewrite on_line_done.
      repeat split; auto; try apply Hh. lia.
    + simpl in Hrx. rewrite Hrx in E. inversion E; subst e.
      pose proof (Forall_inv Hpre) as [Hne Hle].
      pose proof (Forall_inv_tail Hpre) as Hpre'.
      unfold text in Hne. simpl in Hne, Hle.
      assert (Hclk1 : clock w1 <= start + T * 1000) by lia.
      simpl map. simpl fold_left.
      change (text (t0, raw0)) with (Py.strip raw0).
      destruct (String.eqb_spec (Py.strip raw0) EmptyString) as [Hem|Hnem].
      * rewrite Hem, on_line_empty.
        destruct (IH w1 start T m pre' t raw rest) as (w' & A & B & C & D);
          auto.
        exists w'. repeat split; auto; apply (same_host_trans _ _ _ Hh C).
      * destruct (String.eqb_spec (Py.strip raw0) "WEIGH_DONE");
          [contradiction|].
        destruct (IH w1 start T (on_line m (Py.strip raw0)) pre' t raw rest)
          as (w' & A & B & C & D); auto.
        exists w'. repeat split; auto; apply (same_host_trans _ _ _ Hh C).
Qed.

(** ** Facts about the string primitives *)

Lemma append_nil_r s : s ++ EmptyString = s.
Proof. induction s as [|c s IH]; simpl; congruence. Qed.

Lemma append_assoc s t u : (s ++ t) ++ u = s ++ (t ++ u).
Proof. induction s as [|c s IH]; simpl; congruence. Qed.

Lemma all_chars_app f s t :
  all_chars f (s ++ t) = all_chars f s && all_chars f t.
Proof.
  induction s as [|c s IH]; simpl; auto.
  rewrite IH. apply andb_assoc.
Qed.

Lemma lstrip_no_space s : no_space s = true -> Py.lstrip s = s.
Proof.
  destruct s as [|c r]; simpl; auto.
  intros H. apply andb_prop in H. destruct H as [H _].
  destruct (Py.isspace c); [discriminate|reflexivity].
Qed.

Lemma rstrip_cons c r :
  Py.isspace c = false -> Py.rstrip (String c r) = String c (Py.rstrip r).
Proof. intros H. simpl. rewrite H. destruct (Py.rstrip r); reflexivity. Qed.

Lemma rstrip_no_space s : no_space s = true -> Py.rstrip s = s.
Proof.
  induction s as [|c r IH]; auto.
  intros H. simpl in H. apply andb_prop in H. destruct H as [Hc Hr].
  rewrite rstrip_cons by (destruct (Py.isspace c); auto; discriminate).
  rewrite IH; auto.
Qed.

Lemma strip_no_space s : no_space s = true -> Py.strip s = s.
Proof.
  intros H. unfold Py.strip. rewrite lstrip_no_space by auto.
  apply rstrip_no_space; auto.
Qed.

Lemma rstrip_blank s : blank s = true -> Py.rstrip s = EmptyString.
Proof.
  induction s as [|c r IH]; auto.
  intros H. simpl in H. apply andb_prop in H. destruct H as [Hc Hr].
  simpl. rewrite IH, Hc; auto.
Qed.

Lemma rstrip_app_blank s ws :
  blank ws = true -> Py.rstrip (s ++ ws) = Py.rstrip s.
Proof.
  intros H. induction s as [|c r IH]; simpl.
  - apply rstrip_blank; auto.
  - rewrite IH. reflexivity.
Qed.

Lemma no_space_of_list l :
  no_space (string_of_list_ascii l)
  = forallb (fun c => negb (Py.isspace c)) l.
Proof. induction l as [|c l IH]; simpl; auto. unfold no_space in IH. simpl. rewrite <- IH. reflexivity. Qed.

Lemma forallb_rev {A} (f : A -> bool) l : forallb f (rev l) = forallb f l.
Proof.
  induction l as [|a l IH]; simpl; auto.
  rewrite forallb_app, IH. simpl. rewrite andb_true_r. apply andb_comm.
Qed.

(** Reading a run of non-blank characters only grows the current token. *)
Lemma split_go_app tok : forall cur rest,
  no_space tok = true ->
  Py.split_go cur (tok ++ rest)
  = Py.split_go (rev (list_ascii_of_string tok) ++ cur)%list rest.
Proof.
  induction tok as [|c t IH]; intros cur rest H; auto.
  simpl in H. apply andb_prop in H. destruct H as [Hc Ht].
  simpl. destruct (Py.isspace c); [discriminate|].
  rewrite IH by auto. rewrite <- app_assoc. reflexivity.
Qed.

Lemma split_token tok sp rest :
  no_space tok = true -> tok <> EmptyString -> Py.isspace sp = true ->
  Py.split (tok ++ String sp rest) = tok :: Py.split rest.
Proof.
  intros Hn Hne Hsp. unfold Py.split. rewrite split_go_app by auto.
  simpl. rewrite Hsp, app_nil_r.
  destruct (rev (list_ascii_of_string tok)) as [|a l] eqn:E.
  - exfalso. apply Hne. rewrite <- (string_of_list_ascii_of_string tok).
    apply (f_equal (@rev ascii)) in E. rewrite rev_involutive in E.
    rewrite E. reflexivity.
  - rewrite <- E, rev_involutive, string_of_list_ascii_of_string.
    reflexivity.
Qed.

Lemma split_last tok :
  no_space tok = true -> tok <> EmptyString -> Py.split tok = [tok].
Proof.
  intros Hn Hne. unfold Py.split.
  rewrite <- (append_nil_r tok) at 1. rewrite split_go_app by auto.
  simpl. rewrite app_nil_r.
  destruct (rev (list_ascii_of_string tok)) as [|a l] eqn:E.
  - exfalso. apply Hne. rewrite <- (string_of_list_ascii_of_string tok).
    apply (f_equal (@rev ascii)) in E. rewrite rev_involutive in E.
    rewrite E. reflexivity.
  - rewrite <- E, rev_involutive, string_of_list_ascii_of_string.
    reflexivity.
Qed.

(** The tokens [split] produces contain no white space. *)
Lemma split_go_no_space s : forall cur,
  forallb (fun c => negb (Py.isspace c)) cur = true ->
  Forall (fun t => no_space t = true) (Py.split_go cur s).
Proof.
  assert (Hflush : forall cur k,
             forallb (fun c => negb (Py.isspace c)) cur = true ->
             Forall (fun t => no_space t = true) k ->
             Forall (fun t => no_space t = true)
                    match cur with
                    | [] => k
                    | _ => string_of_list_ascii (rev cur) :: k
                    end).
  { intros cur k Hc Hk. destruct cur as [|a l]; auto.
    constructor; auto. rewrite no_space_of_list, forallb_rev. exact Hc. }
  induction s as [|c r IH]; intros cur Hc.
  - simpl. apply Hflush; auto.
  - simpl. destruct (Py.isspace c) eqn:Ec.
    + apply Hflush; auto.
    + apply IH. simpl. rewrite Ec. exact Hc.
Qed.

Lemma split_no_space s : Forall (fun t => no_space t = true) (Py.split s).
Proof. apply split_go_no_space. reflexivity. Qed.

Lemma keep_app f s t : Py.keep f (s ++ t) = Py.keep f s ++ Py.keep f t.
Proof.
  induction s as [|c s IH]; simpl; auto.
  destruct (f c); simpl; congruence.
Qed.

Lemma keep_all f s : all_chars f s = true -> Py.keep f s = s.
Proof.
  induction s as [|c s IH]; simpl; auto.
  intros H. apply andb_prop in H. destruct H as [Hc Hs].
  rewrite Hc, IH; auto.
Qed.

(** ** Facts about the parser *)

Lemma all_chars_lstrip f s : all_chars f s = true -> all_chars f (Py.lstrip s) = true.
Proof.
  induction s as [|c s IH]; simpl; auto.
  intros H. destruct (Py.isspace c); auto.
  apply andb_prop in H. tauto.
Qed.

Lemma all_chars_rstrip f s : all_chars f s = true -> all_chars f (Py.rstrip s) = true.
Proof.
  induction s as [|c s IH]; simpl; auto.
  intros H. apply andb_prop in H. destruct H as [Hc Hs].
  specialize (IH Hs). destruct (Py.rstrip s) as [|c' r'].
  - destruct (Py.isspace c); simpl; auto. rewrite Hc. reflexivity.
  - simpl in *. rewrite Hc. exact IH.
Qed.

Lemma all_chars_strip f s : all_chars f s = true -> all_chars f (Py.strip s) = true.
Proof. intros H. apply all_chars_rstrip, all_chars_lstrip, H. Qed.

Lemma all_chars_keep f g s : all_chars f s = true -> all_chars f (Py.keep g s) = true.
Proof.
  induction s as [|c s IH]; simpl; auto.
  intros H. apply andb_prop in H. destruct H as [Hc Hs].
  destruct (g c); simpl; auto. rewrite Hc. auto.
Qed.

Lemma cut_point_no_digit s :
  no_digit s = true ->
  no_digit (fst (Py.cut_point s)) = true /\ no_digit (snd (Py.cut_point s)) = true.
Proof.
  unfold no_digit. induction s as [|c s IH]; simpl; auto.
  intros H. apply andb_prop in H. destruct H as [Hc Hs].
  destruct (Ascii.eqb c "."); simpl; auto.
  destruct (Py.cut_point s) as [a b]. simpl in *.
  destruct (IH Hs) as [Ha Hb]. rewrite Hc, Ha. auto.
Qed.

Lemma digits_value_no_digit s acc :
  no_digit s = true -> s <> EmptyString -> Py.digits_value acc s = None.
Proof.
  destruct s as [|c s]; [congruence|].
  unfold no_digit. simpl. intros H _. apply andb_prop in H.
  destruct H as [Hc _]. destruct (Py.isdigit c); [discriminate|reflexivity].
Qed.

(** [float] raises on text without a digit. *)
Lemma float_no_digit s : no_digit s = true -> Py.float s = None.
Proof.
  intros H. unfold Py.float.
  assert (Hb : exists neg body,
             match s with
             | String "-" r => (true, r)
             | _ => (false, s)
             end = (neg, body) /\ no_digit body = true).
  { destruct s as [|c r]; [exists false, EmptyString; auto|].
    destruct (Ascii.eqb_spec c "-") as [ -> | Hc].
    - exists true, r. split; [reflexivity|exact H].
    - exists false, (String c r). split; auto.
      destruct c as [[] [] [] [] [] [] [] []]; try reflexivity.
      congruence. }
  destruct Hb as (neg & body & -> & Hbody).
  destruct (cut_point_no_digit _ Hbody) as [Hi Hf].
  destruct (Py.cut_point body) as [ip fp]. simpl in Hi, Hf.
  destruct ip as [|c ip].
  - destruct fp as [|d fp]; [reflexivity|].
    simpl String.length. simpl andb. cbv iota.
    rewrite (digits_value_no_digit (String d fp)) by (auto; discriminate).
    reflexivity.
  - simpl String.length. simpl andb. cbv iota.
    rewrite (digits_value_no_digit (String c ip)) by (auto; discriminate).
    reflexivity.
Qed.

Lemma extract_no_digit val : no_digit val = true -> _extract_number val = None.
Proof.
  intros H. unfold _extract_number.
  destruct (Py.keep is_num_char (Py.strip val)) eqn:E; auto.
  rewrite <- E. apply float_no_digit.
  apply all_chars_keep, all_chars_strip, H.
Qed.

Lemma update_part_no_digit m key val :
  is_key key -> no_digit val = true -> update_part m (key ++ val) = Some m.
Proof.
  intros Hk Hv.
  assert (Hs : forall k, Py.isspace k = false ->
                 Py.strip (String k (String "=" val))
                 = String k (String "=" (Py.rstrip val))).
  { intros k Hk'. unfold Py.strip. simpl Py.lstrip. rewrite Hk'.
    rewrite rstrip_cons by exact Hk'. rewrite rstrip_cons by reflexivity.
    reflexivity. }
  pose proof (extract_no_digit _ (all_chars_rstrip _ _ Hv)) as He.
  unfold update_part.
  destruct Hk as [ -> | [ -> | -> ] ]; simpl append; rewrite Hs by reflexivity;
    simpl; rewrite He; reflexivity.
Qed.

Lemma latest_app old l1 l2 : latest old (l1 ++ l2)%list = latest (latest old l1) l2.
Proof.
  unfold latest. rewrite map_app.
  induction l2 as [|v l2 IH] using rev_ind.
  - simpl. rewrite app_nil_r. reflexivity.
  - rewrite map_app. simpl map. rewrite app_assoc, !last_last. reflexivity.
Qed.

Lemma readings_app key l1 l2 :
  readings key (l1 ++ l2)%list = (readings key l1 ++ readings key l2)%list.
Proof. unfold readings. apply flat_map_app. Qed.

Lemma startswith_key k p :
  Py.startswith (String k (String "=" EmptyString)) p = true ->
  exists v, p = String k (String "=" v).
Proof.
  destruct p as [|c1 [|c2 v]]; cbn [Py.startswith]; try discriminate.
  - rewrite andb_false_r. discriminate.
  - destruct (Ascii.eqb_spec k c1) as [<-|]; [|discriminate].
    destruct (Ascii.eqb_spec "=" c2) as [<-|]; [|discriminate].
    intros _. exists v. reflexivity.
Qed.

Lemma readings_cons key p ps :
  readings key (p :: ps) = (readings key [p] ++ readings key ps)%list.
Proof. apply (readings_app key [p] ps). Qed.

(** The [if]/[elif] chain on one fragment never raises, and assigns to each
    variable the value the fragment carries for its key, if any. *)
Lemma update_part_spec m p :
  no_space p = true ->
  update_part m p
  = Some (mkMeas (latest (weight m) (readings "W=" [p]))
                 (latest (temp_c m) (readings "T=" [p]))
                 (latest (hum_pct m) (readings "H=" [p]))).
Proof.
  intros Hp. unfold update_part. rewrite strip_no_space by exact Hp.
  unfold readings, flat_map. rewrite !app_nil_r. destruct m as [mw mt mh].
  cbn [weight temp_c hum_pct].
  destruct (Py.startswith "W=" p) eqn:EW.
  { apply startswith_key in EW. destruct EW as [v ->]. simpl.
    destruct (_extract_number v); reflexivity. }
  destruct (Py.startswith "T=" p) eqn:ET.
  { apply startswith_key in ET. destruct ET as [v ->]. simpl.
    destruct (_extract_number v); reflexivity. }
  destruct (Py.startswith "H=" p) eqn:EH.
  { apply startswith_key in EH. destruct EH as [v ->]. simpl.
    destruct (_extract_number v); reflexivity. }
  reflexivity.
Qed.

Lemma for_parts_spec parts : forall m,
  Forall (fun p => no_space p = true) parts ->
  for_parts m parts
  = mkMeas (latest (weight m) (readings "W=" parts))
           (latest (temp_c m) (readings "T=" parts))
           (latest (hum_pct m) (readings "H=" parts)).
Proof.
  induction parts as [|p ps IH]; intros m H.
  - destruct m; reflexivity.
  - pose proof (Forall_inv H) as Hp. pose proof (Forall_inv_tail H) as Hps.
    cbn [for_parts]. rewrite update_part_spec by exact Hp.
    rewrite IH by exact Hps. cbn [weight temp_c hum_pct].
    rewrite !(readings_cons _ p ps), !latest_app. reflexivity.
Qed.

Lemma fold_on_line_spec lines : forall m,
  fold_left on_line lines m
  = mkMeas (latest (weight m) (readings "W=" (fragments lines)))
           (latest (temp_c m) (readings "T=" (fragments lines)))
           (latest (hum_pct m) (readings "H=" (fragments lines))).
Proof.
  induction lines as [|l ls IH]; intros m.
  - destruct m; reflexivity.
  - simpl fold_left. rewrite IH.
    change (fragments (l :: ls))
      with ((if Py.startswith "MEASURED" l then tl (Py.split l) else [])
              ++ fragments ls)%list.
    rewrite !readings_app, !latest_app. unfold on_line.
    destruct (Py.startswith "MEASURED" l).
    + rewrite for_parts_spec; [reflexivity|].
      pose proof (split_no_space l) as H.
      destruct (Py.split l); simpl; auto. apply (Forall_inv_tail H).
    + reflexivity.
Qed.

Lemma fold_on_line_union lines :
  fold_left on_line lines no_meas = union_last_wins lines.
Proof. apply fold_on_line_spec. Qed.

(** ** Lines made of tokens *)

Lemma append_nonempty_r s t : t <> EmptyString -> s ++ t <> EmptyString.
Proof. destruct s; simpl; auto. discriminate. Qed.

Lemma join_sp_nonempty toks :
  toks <> [] -> Forall token toks -> join_sp toks <> EmptyString.
Proof.
  destruct toks as [|t ts]; [congruence|]. intros _ H.
  pose proof (Forall_inv H) as [_ Ht]. simpl.
  destruct ts; auto. apply append_nonempty_r. discriminate.
Qed.

Lemma split_join toks : Forall token toks -> Py.split (join_sp toks) = toks.
Proof.
  induction toks as [|t ts IH]; intros H; [reflexivity|].
  pose proof (Forall_inv H) as [Hn Hne].
  pose proof (Forall_inv_tail H) as Hts.
  destruct ts as [|t2 ts].
  - simpl. apply split_last; auto.
  - change (join_sp (t :: t2 :: ts)) with (t ++ String " " (join_sp (t2 :: ts))).
    rewrite split_token by auto. rewrite IH by auto. reflexivity.
Qed.

Lemma rstrip_app_keep s t :
  t <> EmptyString -> Py.rstrip t = t -> Py.rstrip (s ++ t) = s ++ t.
Proof.
  intros Hne Ht. induction s as [|c s IH]; simpl; auto.
  rewrite IH. destruct (s ++ t) eqn:E; auto.
  exfalso. apply (append_nonempty_r s t Hne E).
Qed.

Lemma rstrip_join toks :
  Forall token toks -> Py.rstrip (join_sp toks) = join_sp toks.
Proof.
  induction toks as [|t ts IH]; intros H; [reflexivity|].
  pose proof (Forall_inv H) as [Hn Hne].
  pose proof (Forall_inv_tail H) as Hts.
  destruct ts as [|t2 ts].
  - simpl. apply rstrip_no_space; auto.
  - change (join_sp (t :: t2 :: ts)) with (t ++ String " " (join_sp (t2 :: ts))).
    apply rstrip_app_keep; [discriminate|].
    cbn [Py.rstrip]. rewrite IH by auto.
    destruct (join_sp (t2 :: ts)) eqn:E; auto.
    exfalso. apply (join_sp_nonempty (t2 :: ts)); auto. discriminate.
Qed.

Lemma lstrip_head c s : Py.isspace c = false -> Py.lstrip (String c s) = String c s.
Proof. intros H. simpl. rewrite H. reflexivity. Qed.

Lemma lstrip_blank s : blank s = true -> Py.lstrip s = EmptyString.
Proof.
  induction s as [|c r IH]; auto.
  intros H. simpl in H. apply andb_prop in H. destruct H as [Hc Hr].
  simpl. rewrite Hc. auto.
Qed.

(** Stripping a received line made of tokens removes exactly its
    terminator. *)
Lemma strip_join toks eol :
  Forall token toks -> blank eol = true ->
  Py.strip (join_sp toks ++ eol) = join_sp toks.
Proof.
  intros H He. unfold Py.strip.
  destruct toks as [|t ts].
  - simpl. rewrite lstrip_blank by auto. reflexivity.
  - assert (Hl : Py.lstrip (join_sp (t :: ts) ++ eol) = join_sp (t :: ts) ++ eol).
    { pose proof (Forall_inv H) as [Hn Hne].
      destruct t as [|c t']; [congruence|].
      simpl in Hn. apply andb_prop in Hn. destruct Hn as [Hc _].
      assert (Hc' : Py.isspace c = false)
        by (destruct (Py.isspace c); auto; discriminate).
      simpl join_sp. destruct ts; simpl append; apply lstrip_head; auto. }
    rewrite Hl, rstrip_app_blank by auto. apply rstrip_join; auto.
Qed.

(** ** Values with a unit suffix *)

Lemma all_chars_impl (f g : ascii -> bool) s :
  (forall c, f c = true -> g c = true) ->
  all_chars f s = true -> all_chars g s = true.
Proof.
  intros Hfg. induction s as [|c s IH]; simpl; auto.
  intros H. apply andb_prop in H. destruct H as [Hc Hs].
  rewrite (Hfg _ Hc). auto.
Qed.

Lemma num_char_not_space c : is_num_char c = true -> negb (Py.isspace c) = true.
Proof.
  destruct c as [[] [] [] [] [] [] [] []]; vm_compute; intros; congruence.
Qed.

Lemma numeral_no_space a : numeral a = true -> no_space a = true.
Proof. apply all_chars_impl, num_char_not_space. Qed.

Lemma unit_suffix_no_space u : unit_suffix u = true -> no_space u = true.
Proof.
  apply all_chars_impl. intros c H. apply andb_prop in H. tauto.
Qed.

Lemma keep_none f s :
  all_chars (fun c => negb (f c)) s = true -> Py.keep f s = EmptyString.
Proof.
  induction s as [|c s IH]; simpl; auto.
  intros H. apply andb_prop in H. destruct H as [Hc Hs].
  destruct (f c); [discriminate|auto].
Qed.

Lemma no_space_app s t : no_space (s ++ t) = no_space s && no_space t.
Proof. apply all_chars_app. Qed.

(** The unit letters after a numeral do not reach [float]. *)
Lemma extract_suffix a u va :
  numeral a = true -> Py.float a = Some va -> unit_suffix u = true ->
  _extract_number (a ++ u) = Some va.
Proof.
  intros Ha Hf Hu. unfold _extract_number.
  rewrite strip_no_space.
  2:{ rewrite no_space_app, (numeral_no_space _ Ha),
        (unit_suffix_no_space _ Hu). reflexivity. }
  rewrite keep_app, (keep_all _ _ Ha), keep_none, append_nil_r.
  2:{ revert Hu. apply all_chars_impl. intros c H.
      apply andb_prop in H. tauto. }
  destruct a; [discriminate Hf|exact Hf].
Qed.

Lemma update_part_W m v x :
  no_space v = true -> _extract_number v = Some x ->
  update_part m ("W=" ++ v) = Some (mkMeas (Some x) (temp_c m) (hum_pct m)).
Proof.
  intros Hn He. unfold update_part.
  rewrite strip_no_space by exact Hn. simpl. rewrite He. reflexivity.
Qed.

Lemma update_part_T m v x :
  no_space v = true -> _extract_number v = Some x ->
  update_part m ("T=" ++ v) = Some (mkMeas (weight m) (Some x) (hum_pct m)).
Proof.
  intros Hn He. unfold update_part.
  rewrite strip_no_space by exact Hn. simpl. rewrite He. reflexivity.
Qed.

Lemma update_part_H m v x :
  no_space v = true -> _extract_number v = Some x ->
  update_part m ("H=" ++ v) = Some (mkMeas (weight m) (temp_c m) (Some x)).
Proof.
  intros Hn He. unfold update_part.
  rewrite strip_no_space by exact Hn. simpl. rewrite He. reflexivity.
Qed.

Lemma token_measured : token "MEASURED".
Proof. split; [reflexivity|discriminate]. Qed.

Lemma token_field key v : is_key key -> no_space v = true -> token (key ++ v).
Proof.
  intros [ -> | [ -> | -> ] ] Hv; (split; [exact Hv|discriminate]).
Qed.

(** A complete [MEASURED] line sets the three fields to the values its
    numerals denote, whatever the unit suffixes. *)
Lemma on_line_full m a b c ua ub uc va vb vc :
  numeral a = true -> numeral b = true -> numeral c = true ->
  Py.float a = Some va -> Py.float b = Some vb -> Py.float c = Some vc ->
  unit_suffix ua = true -> unit_suffix ub = true -> unit_suffix uc = true ->
  on_line m (join_sp ["MEASURED"; "W=" ++ a ++ ua; "T=" ++ b ++ ub;
                      "H=" ++ c ++ uc])
  = mkMeas (Some va) (Some vb) (Some vc).
Proof.
  intros Ha Hb Hc Fa Fb Fc Ua Ub Uc.
  assert (Na : no_space (a ++ ua) = true)
    by (rewrite no_space_app, (numeral_no_space _ Ha),
          (unit_suffix_no_space _ Ua); reflexivity).
  assert (Nb : no_space (b ++ ub) = true)
    by (rewrite no_space_app, (numeral_no_space _ Hb),
          (unit_suffix_no_space _ Ub); reflexivity).
  assert (Nc : no_space (c ++ uc) = true)
    by (rewrite no_space_app, (numeral_no_space _ Hc),
          (unit_suffix_no_space _ Uc); reflexivity).
  unfold on_line.
  replace (Py.startswith "MEASURED" _) with true by reflexivity.
  rewrite split_join.
  2:{ repeat constructor; try discriminate; auto. }
  cbn [tl for_parts].
  rewrite (update_part_W _ _ va Na (extract_suffix _ _ _ Ha Fa Ua)).
  rewrite (update_part_T _ _ vb Nb (extract_suffix _ _ _ Hb Fb Ub)).
  rewrite (update_part_H _ _ vc Nc (extract_suffix _ _ _ Hc Fc Uc)).
  reflexivity.
Qed.

(** ** The measurement reader: results *)

Ltac line_facts :=
  repeat first
    [ apply Forall_nil
    | apply Forall_cons
    | split
    | (let H := fresh in intros H; vm_compute in H; discriminate H)
    | reflexivity
    | (vm_compute; lia)
    | (vm_compute; intros; discriminate) ].

(** C3.  A line [MEASURED W=<a>g T=<b>C H=<c>%] followed by [WEIGH_DONE],
    both received within the timeout, makes [read_measurement] return
    exactly the values the three numerals denote: the unit letters and the
    line terminators never reach the numeric conversion. *)
Theorem measured_line_yields_exact_values
  fuel w timeout a b c va vb vc eol1 eol2 t1 t2 rest :
  numeral a = true -> numeral b = true -> numeral c = true ->
  Py.float a = Some va -> Py.float b = Some vb -> Py.float c = Some vc ->
  blank eol1 = true -> blank eol2 = true ->
  rx w = (t1, "MEASURED W=" ++ a ++ "g T=" ++ b ++ "C H=" ++ c ++ "%" ++ eol1)
           :: (t2, "WEIGH_DONE" ++ eol2) :: rest ->
  0 <= timeout ->
  t1 <= clock w + timeout * 1000 ->
  t2 <= clock w + timeout * 1000 ->
  (enough_fuel w timeout <= fuel)%nat ->
  exists w',
    read_measurement fuel w timeout
    = Some (mkMeas (Some va) (Some vb) (Some vc), w')
    /\ rx w' = rest.
Proof.
  intros Ha Hb Hc Fa Fb Fc E1 E2 Hrx HT Ht1 Ht2 Hfuel.
  set (toks := ["MEASURED"; "W=" ++ a ++ "g"; "T=" ++ b ++ "C"; "H=" ++ c ++ "%"]).
  assert (Htoks : Forall token toks).
  { unfold toks. repeat apply Forall_cons; try apply Forall_nil.
    - apply token_measured.
    - apply token_field; [left; reflexivity|].
      rewrite no_space_app, (numeral_no_space _ Ha). reflexivity.
    - apply token_field; [right; left; reflexivity|].
      rewrite no_space_app, (numeral_no_space _ Hb). reflexivity.
    - apply token_field; [right; right; reflexivity|].
      rewrite no_space_app, (numeral_no_space _ Hc). reflexivity. }
  assert (Hshape : "MEASURED W=" ++ a ++ "g T=" ++ b ++ "C H=" ++ c ++ "%" ++ eol1
                   = join_sp toks ++ eol1).
  { unfold toks. repeat (simpl; rewrite ?append_assoc). reflexivity. }
  assert (Hline : text (t1, "MEASURED W=" ++ a ++ "g T=" ++ b ++ "C H=" ++ c ++ "%" ++ eol1)
                  = join_sp toks).
  { unfold text. cbn [snd]. rewrite Hshape. apply strip_join; auto. }
  assert (Hdone : Py.strip ("WEIGH_DONE" ++ eol2) = "WEIGH_DONE").
  { apply (strip_join ["WEIGH_DONE"]); auto.
    repeat constructor. discriminate. }
  unfold read_measurement.
  destruct (measure_loop_done fuel w (clock w) timeout no_meas
              [(t1, "MEASURED W=" ++ a ++ "g T=" ++ b ++ "C H=" ++ c ++ "%" ++ eol1)]
              t2 ("WEIGH_DONE" ++ eol2) rest)
    as (w' & Hrun & Hrest & _); auto; try lia.
  - constructor; [|constructor]. split; [|exact Ht1].
    rewrite Hline. unfold toks. simpl. discriminate.
  - pose proof (slack_start w timeout). lia.
  - exists w'. split; [|exact Hrest]. rewrite Hrun. f_equal. f_equal.
    cbn [map fold_left]. rewrite Hline. unfold toks.
    apply on_line_full; auto.
Qed.

Lemma measured_line_yields_exact_values_witness :
  exists w',
    read_measurement 20
      (mkWorld 0 [(100, "MEASURED W=12.3g T=25.0C H=40.1%" ++ CRLF);
                  (150, "WEIGH_DONE" ++ CRLF)] "" true true [] None [])
      20
    = Some (mkMeas (Some (123 # 10)) (Some (25 # 1)) (Some (401 # 10)), w')
    /\ rx w' = [].
Proof.
  apply (measured_line_yields_exact_values 20
           (mkWorld 0 [(100, "MEASURED W=12.3g T=25.0C H=40.1%" ++ CRLF);
                       (150, "WEIGH_DONE" ++ CRLF)] "" true true [] None [])
           20 "12.3" "25.0" "40.1" (123 # 10) (25 # 1) (401 # 10)
           CRLF CRLF 100 150 []);
    line_facts.
Defined.

(** C4.  When the lines before [WEIGH_DONE] are all received within the
    timeout, the record [read_measurement] returns is the union of the
    fields parsed from every [MEASURED] line, the last value that parsed
    winning for each field; a token that does not parse contributes nothing,
    so it never replaces a value parsed earlier. *)
Theorem split_stream_union_last_wins fuel w timeout pre t raw rest :
  0 <= timeout ->
  rx w = (pre ++ (t, raw) :: rest)%list ->
  Forall (fun e => text e <> "WEIGH_DONE" /\ fst e <= clock w + timeout * 1000)
         pre ->
  Py.strip raw = "WEIGH_DONE" ->
  t <= clock w + timeout * 1000 ->
  (enough_fuel w timeout <= fuel)%nat ->
  exists w',
    read_measurement fuel w timeout
    = Some (union_last_wins (map text pre), w')
    /\ rx w' = rest.
Proof.
  intros HT Hrx Hpre Hraw Ht Hfuel. unfold read_measurement.
  destruct (measure_loop_done fuel w (clock w) timeout no_meas pre t raw rest)
    as (w' & Hrun & Hrest & _); auto; try lia.
  - pose proof (slack_start w timeout). lia.
  - exists w'. rewrite Hrun, fold_on_line_union. auto.
Qed.

Lemma split_stream_union_last_wins_witness :
  exists w',
    read_measurement 20
      (mkWorld 0 [(10, "BOOT OK" ++ CRLF);
                  (700, "MEASURED W=12.3g T=25.0C H=40.1%" ++ CRLF);
                  (900, "MEASURED H=41.0%" ++ CRLF);
                  (950, "WEIGH_DONE" ++ CRLF)] "" true true [] None [])
      20
    = Some (mkMeas (Some (123 # 10)) (Some (25 # 1)) (Some (41 # 1)), w')
    /\ rx w' = [].
Proof.
  apply (split_stream_union_last_wins 20
           (mkWorld 0 [(10, "BOOT OK" ++ CRLF);
                       (700, "MEASURED W=12.3g T=25.0C H=40.1%" ++ CRLF);
                       (900, "MEASURED H=41.0%" ++ CRLF);
                       (950, "WEIGH_DONE" ++ CRLF)] "" true true [] None [])
           20
           [(10, "BOOT OK" ++ CRLF);
            (700, "MEASURED W=12.3g T=25.0C H=40.1%" ++ CRLF);
            (900, "MEASURED H=41.0%" ++ CRLF)]
           950 ("WEIGH_DONE" ++ CRLF) []); line_facts.
Defined.

(** C5.  When no [WEIGH_DONE] line is ever received, [read_measurement]
    returns the all-absent record, and it does so after the timeout has
    elapsed and no later than one port timeout past it. *)
Theorem read_measurement_gives_up_at_timeout fuel w timeout :
  0 <= timeout ->
  Forall (fun e => text e <> "WEIGH_DONE") (rx w) ->
  (enough_fuel w timeout <= fuel)%nat ->
  exists w',
    read_measurement fuel w timeout = Some (mkMeas None None None, w')
    /\ timeout * 1000 < clock w' - clock w <= timeout * 1000 + SER_TIMEOUT.
Proof.
  intros HT Hall Hfuel. unfold read_measurement.
  apply (measure_loop_timeout fuel w (clock w) timeout no_meas (rx w) []).
  - rewrite app_nil_r. reflexivity.
  - exact Hall.
  - constructor.
  - unfold SER_TIMEOUT. lia.
  - pose proof (slack_start w timeout). lia.
Qed.

Lemma read_measurement_gives_up_at_timeout_witness :
  exists w',
    read_measurement 20
      (mkWorld 0 [(500, "MEASURED W=12.3g" ++ CRLF); (19000, "still busy" ++ CRLF)]
               "" true true [] None [])
      20
    = Some (mkMeas None None None, w')
    /\ 20 * 1000 < clock w' - 0 <= 20 * 1000 + SER_TIMEOUT.
Proof.
  apply (read_measurement_gives_up_at_timeout 20
           (mkWorld 0 [(500, "MEASURED W=12.3g" ++ CRLF);
                       (19000, "still busy" ++ CRLF)]
                    "" true true [] None [])
           20); line_facts.
Defined.

(** C6 (as the code has it).  In the middle of a wait, with [m] holding
    whatever fields earlier [MEASURED] lines gave, if no [WEIGH_DONE] can be
    read before the deadline check fires (the lines [pre] still to come are
    not [WEIGH_DONE], and the ones after them arrive later than a read
    begun within the timeout can return them, that is more than the timeout
    plus one port timeout after the start), the reader returns all three
    fields absent: [m] is dropped, as is anything parsed from [pre]. *)
Theorem timeout_discards_partial_fields fuel w start timeout m pre rest :
  rx w = (pre ++ rest)%list ->
  Forall (fun e => text e <> "WEIGH_DONE") pre ->
  Forall (fun e => start + timeout * 1000 + SER_TIMEOUT < fst e) rest ->
  clock w - start <= timeout * 1000 + SER_TIMEOUT ->
  (slack w (start + timeout * 1000) < fuel)%nat ->
  exists w',
    measure_loop fuel w start timeout m = Some (mkMeas None None None, w')
    /\ timeout * 1000 < clock w' - start.
Proof.
  intros Hrx Hpre Hrest Hin Hs.
  destruct (measure_loop_timeout fuel w start timeout m pre rest)
    as (w' & Hrun & Hlate & _); auto.
  exists w'. auto.
Qed.

Lemma timeout_discards_partial_fields_witness :
  exists w',
    measure_loop 20
      (mkWorld 3000 [(8000, "MEASURED T=25.0C" ++ CRLF);
                     (30000, "WEIGH_DONE" ++ CRLF)] "" true true [] None [])
      0 20 (mkMeas (Some (123 # 10)) None None)
    = Some (mkMeas None None None, w')
    /\ 20 * 1000 < clock w' - 0.
Proof.
  apply (timeout_discards_partial_fields 20
           (mkWorld 3000 [(8000, "MEASURED T=25.0C" ++ CRLF);
                          (30000, "WEIGH_DONE" ++ CRLF)] "" true true [] None [])
           0 20 (mkMeas (Some (123 # 10)) None None)
           [(8000, "MEASURED T=25.0C" ++ CRLF)]
           [(30000, "WEIGH_DONE" ++ CRLF)]); line_facts.
Defined.

(** C6 as written fails: the deadline is looked at only between reads, so
    a [WEIGH_DONE] that arrives after the timeout has elapsed, during a read
    begun within it, still ends the wait with the fields parsed so far. *)
Lemma late_weigh_done_counterexample :
  20 * 1000 < 20400 - 0
  /\ exists w',
       read_measurement 20
         (mkWorld 0 [(500, "MEASURED W=12.3g" ++ CRLF);
                     (20400, "WEIGH_DONE" ++ CRLF)] "" true true [] None [])
         20
       = Some (mkMeas (Some (123 # 10)) None None, w')
       /\ clock w' = 20400
       /\ mkMeas (Some (123 # 10)) None None <> mkMeas None None None.
Proof.
  split; [lia|]. eexists. split; [vm_compute; reflexivity|].
  split; [reflexivity|discriminate].
Qed.

(** An acknowledgment that arrives within the timeout, after lines that
    also arrive within it and are not the acknowledgment, ends the wait. *)
Lemma wait_loop_done fuel : forall w start e T pre t raw rest,
  e <> EmptyString ->
  rx w = (pre ++ (t, raw) :: rest)%list ->
  Forall (fun x => text x <> e /\ fst x <= start + T * 1000) pre ->
  Py.strip raw = e ->
  t <= start + T * 1000 ->
  clock w <= start + T * 1000 ->
  (slack w (start + T * 1000) < fuel)%nat ->
  exists w', wait_loop fuel w start e T = Some (true, w') /\ rx w' = rest.
Proof.
  induction fuel as [|fuel IH];
    intros w start e T pre t raw rest Hne Hrx Hpre Hraw Ht Hclk Hs; [lia|].
  simpl. destruct (Z.ltb_spec (T * 1000) (clock w - start)) as [Hlate|Hok];
    [lia|].
  destruct (readline w) as [raw0 w1] eqn:R.
  assert (Hs1 : (slack w1 (start + T * 1000) < fuel)%nat).
  { pose proof (readline_slack _ _ _ (start + T * 1000) R). lia. }
  destruct (readline_rx _ _ _ R) as [(E0 & E & K & Hnext) | (t0 & E & Ht0 & K)].
  - subst raw0. change (Py.strip EmptyString) with EmptyString.
    destruct (String.eqb_spec EmptyString e) as [He|_]; [congruence|].
    assert (Hclk1 : clock w1 <= start + T * 1000).
    { rewrite Hrx in Hnext. destruct pre as [|[t1 r1] pre']; simpl in Hnext.
      - lia.
      - apply Forall_inv in Hpre. simpl in Hpre. lia. }
    apply (IH w1 start e T pre t raw rest); auto. congruence.
  - destruct pre as [|x pre'].
    + simpl in Hrx. rewrite Hrx in E. inversion E; subst t0 raw0.
      rewrite Hraw, String.eqb_refl. exists w1. auto.
    + simpl in Hrx. rewrite Hrx in E. inversion E; subst x.
      pose proof (Forall_inv Hpre) as [Hx Hle].
      pose proof (Forall_inv_tail Hpre) as Hpre'.
      unfold text in Hx. simpl in Hx, Hle.
      destruct (String.eqb_spec (Py.strip raw0) e) as [Heq|_];
        [contradiction|].
      apply (IH w1 start e T pre' t raw rest); auto. lia.
Qed.

(** C7 (as the code has it).  [wait_for_arduino] compares each received
    line, stripped of all leading and trailing white space (its terminator
    included), with the expected acknowledgment.  It always returns a
    boolean: [True] exactly at the first line that equals the
    acknowledgment, every line read before it differing from it and having
    been passed over; [False] only once the timeout has elapsed, all lines
    read meanwhile differing from it.  And an acknowledgment that arrives
    within the timeout, whatever other lines precede it, is accepted. *)
Theorem wait_accepts_stripped_ack fuel w expected_msg timeout :
  expected_msg <> EmptyString ->
  0 <= timeout ->
  (enough_fuel w timeout <= fuel)%nat ->
  (exists b w' seen,
      wait_for_arduino fuel w expected_msg timeout = Some (b, w')
      /\ rx w = (seen ++ rx w')%list
      /\ (if b
          then exists pre last, seen = (pre ++ [last])%list
               /\ Py.strip (snd last) = expected_msg
               /\ Forall (fun e => Py.strip (snd e) <> expected_msg) pre
          else Forall (fun e => Py.strip (snd e) <> expected_msg) seen
               /\ timeout * 1000 < clock w' - clock w))
  /\ (forall pre t raw rest,
         rx w = (pre ++ (t, raw) :: rest)%list ->
         Forall (fun e => Py.strip (snd e) <> expected_msg
                          /\ fst e <= clock w + timeout * 1000) pre ->
         Py.strip raw = expected_msg ->
         t <= clock w + timeout * 1000 ->
         exists w',
           wait_for_arduino fuel w expected_msg timeout = Some (true, w')
           /\ rx w' = rest).
Proof.
  intros Hne HT Hfuel. pose proof (slack_start w timeout) as Hs.
  unfold wait_for_arduino. split.
  - destruct (wait_loop_spec fuel w (clock w) expected_msg timeout Hne)
      as (b & w' & seen & Hrun & Hrx & _ & _ & Hres); [lia|].
    exists b, w', seen. auto.
  - intros pre t raw rest Hrx Hpre Hraw Ht.
    apply (wait_loop_done fuel w (clock w) expected_msg timeout pre t raw rest);
      auto; lia.
Qed.

Lemma wait_accepts_stripped_ack_witness :
  exists w',
    wait_for_arduino 20
      (mkWorld 0 [(100, "AT_CAPTURE!" ++ CRLF); (200, "at_capture" ++ CRLF);
                  (9000, "AT_CAPTURE" ++ CRLF); (9500, "AT_HOME" ++ CRLF)]
               "" true true [] None [])
      "AT_CAPTURE" 15
    = Some (true, w')
    /\ rx w' = [(9500, "AT_HOME" ++ CRLF)].
Proof.
  apply (proj2 (wait_accepts_stripped_ack 20
           (mkWorld 0 [(100, "AT_CAPTURE!" ++ CRLF); (200, "at_capture" ++ CRLF);
                       (9000, "AT_CAPTURE" ++ CRLF); (9500, "AT_HOME" ++ CRLF)]
                    "" true true [] None [])
           "AT_CAPTURE" 15
           ltac:(discriminate) ltac:(lia) ltac:(vm_compute; lia))
           [(100, "AT_CAPTURE!" ++ CRLF); (200, "at_capture" ++ CRLF)]
           9000 ("AT_CAPTURE" ++ CRLF) [(9500, "AT_HOME" ++ CRLF)]);
    line_facts.
Defined.

(** C7 as the specification words it fails: a line that differs from the
    acknowledgment once its terminator is removed (it starts with a blank)
    is accepted all the same. *)
Lemma leading_blank_ack_counterexample :
  strip_eol (" AT_CAPTURE" ++ CRLF) <> "AT_CAPTURE"
  /\ exists w',
       wait_for_arduino 20
         (mkWorld 0 [(100, " AT_CAPTURE" ++ CRLF)] "" true true [] None [])
         "AT_CAPTURE" 15
       = Some (true, w').
Proof.
  split.
  - vm_compute. discriminate.
  - eexists. vm_compute. reflexivity.
Qed.

(** C8.  A fragment [KEY=VALUE] whose value holds no digit leaves the
    record as it was and raises nothing, alone or on a [MEASURED] line. *)
Theorem digitless_fragment_is_skipped m key val :
  is_key key ->
  no_digit val = true ->
  _extract_number val = None
  /\ update_part m (key ++ val) = Some m
  /\ (no_space val = true -> on_line m ("MEASURED " ++ key ++ val) = m).
Proof.
  intros Hk Hv. split; [apply extract_no_digit; exact Hv|].
  split; [apply update_part_no_digit; assumption|].
  intros Hs. unfold on_line.
  replace (Py.startswith "MEASURED" _) with true by reflexivity.
  change ("MEASURED " ++ key ++ val) with (join_sp ["MEASURED"; key ++ val]).
  rewrite split_join.
  - cbn [tl for_parts]. rewrite update_part_no_digit by assumption.
    reflexivity.
  - repeat constructor; try discriminate.
    + apply token_field; assumption.
    + apply token_field; assumption.
Qed.

Lemma digitless_fragment_is_skipped_witness :
  _extract_number "abc" = None
  /\ update_part no_meas ("W=" ++ "abc") = Some no_meas
  /\ (no_space "abc" = true -> on_line no_meas ("MEASURED " ++ "W=" ++ "abc") = no_meas).
Proof.
  apply (digitless_fragment_is_skipped no_meas "W=" "abc");
    [left; reflexivity | reflexivity].
Defined.

(** ** The crop *)

Lemma apply_crop_clamped_empty cfg img :
  clamped_empty cfg img = true -> apply_crop cfg img = img.
Proof.
  unfold clamped_empty, apply_crop. intros H.
  destruct (negb (ENABLE_CROP cfg)); [reflexivity|].
  cbv zeta. rewrite H. reflexivity.
Qed.

Lemma misses_is_clamped_empty cfg img :
  0 <= CROP_X cfg -> 0 <= CROP_Y cfg ->
  rect_misses_frame cfg img = clamped_empty cfg img.
Proof.
  intros Hx Hy. unfold rect_misses_frame, clamped_empty.
  rewrite !(Z.max_r 0 (CROP_X cfg)) by lia.
  rewrite !(Z.max_r 0 (CROP_Y cfg)) by lia.
  reflexivity.
Qed.

(** ** The per-sample loop *)

Lemma keeps_refl w : keeps w w.
Proof. split; auto. Qed.

Lemma keeps_trans w1 w2 w3 : keeps w1 w2 -> keeps w2 w3 -> keeps w1 w3.
Proof. unfold keeps. intros [A B] [C D]. split; [congruence|lia]. Qed.

Lemma readline_keeps w raw w1 : readline w = (raw, w1) -> keeps w w1.
Proof.
  intros R. split; [apply (readline_host _ _ _ R)|].
  destruct (readline_rx _ _ _ R) as [(_ & E & _) | (t & E & _)];
    rewrite E; simpl; lia.
Qed.

Lemma wait_loop_keeps fuel : forall w start e T b w',
  wait_loop fuel w start e T = Some (b, w') ->
  keeps w w' /\ tx w' = tx w /\ files w' = files w.
Proof.
  induction fuel as [|fuel IH]; intros w start e T b w' H; [discriminate|].
  simpl in H. destruct (T * 1000 <? clock w - start).
  - inversion H; subst. repeat split; auto.
  - destruct (readline w) as [raw w1] eqn:R.
    pose proof (readline_keeps _ _ _ R) as K.
    pose proof (readline_host _ _ _ R) as (Ht & _ & Hf & _).
    destruct (String.eqb (Py.strip raw) e).
    + inversion H; subst. auto.
    + apply IH in H. destruct H as (K' & Ht' & Hf').
      split; [apply (keeps_trans _ _ _ K K')|]. split; congruence.
Qed.

Lemma measure_loop_keeps fuel : forall w start T m m' w',
  measure_loop fuel w start T m = Some (m', w') ->
  keeps w w' /\ tx w' = tx w /\ files w' = files w.
Proof.
  induction fuel as [|fuel IH]; intros w start T m m' w' H; [discriminate|].
  simpl in H. destruct (T * 1000 <? clock w - start).
  - inversion H; subst. repeat split; auto.
  - destruct (readline w) as [raw w1] eqn:R.
    pose proof (readline_keeps _ _ _ R) as K.
    pose proof (readline_host _ _ _ R) as (Ht & _ & Hf & _).
    assert (Hrec : forall m0, measure_loop fuel w1 start T m0 = Some (m', w') ->
                     keeps w w' /\ tx w' = tx w /\ files w' = files w).
    { intros m0 H0. apply IH in H0. destruct H0 as (K' & Ht' & Hf').
      split; [apply (keeps_trans _ _ _ K K')|]. split; congruence. }
    destruct (String.eqb (Py.strip raw) EmptyString); [apply (Hrec _ H)|].
    destruct (String.eqb (Py.strip raw) "WEIGH_DONE"); [|apply (Hrec _ H)].
    inversion H; subst. auto.
Qed.

Lemma warmup_keeps n : forall w, keeps w (warmup n w).
Proof.
  induction n as [|n IH]; intros w; [apply keeps_refl|].
  simpl. apply (keeps_trans _ (snd (cap_read w))); [|apply IH].
  unfold cap_read. destruct (cam w); split; simpl; auto.
Qed.

Lemma enough_fuel_bound w w' T fuel :
  (List.length (rx w') <= List.length (rx w))%nat ->
  T <= 20 ->
  (List.length (rx w) + 12 <= fuel)%nat ->
  (enough_fuel w' T <= fuel)%nat.
Proof.
  intros Hl HT Hf. unfold enough_fuel, SER_TIMEOUT.
  assert (T * 1000 / 2000 <= 10).
  { apply Z.div_le_upper_bound; lia. }
  lia.
Qed.

Section ProgramFacts.

Variable cfg : Config.
Variable cvtColor : Frame -> ColorCode -> Frame.
Variable cv_split : Frame -> Plane * Plane * Plane.
Variable cv_merge : Plane * Plane * Plane -> Frame.
Variable clahe_apply : Q -> nat * nat -> Plane -> Plane.
Variable filter2D : Frame -> Z -> list (list Q) -> Frame.
Variable strftime : string -> Z -> string.
Variable os_path_join : string -> string -> string.

Local Abbreviation enhance :=
  (enhance_image_soft cvtColor cv_split cv_merge clahe_apply filter2D).
Local Abbreviation save :=
  (save_images cfg cvtColor cv_split cv_merge clahe_apply filter2D strftime
               os_path_join).
Local Abbreviation capture :=
  (capture_image cfg cvtColor cv_split cv_merge clahe_apply filter2D strftime
                 os_path_join).
Local Abbreviation run_cycle :=
  (cycle cfg cvtColor cv_split cv_merge clahe_apply filter2D strftime
         os_path_join).
Local Abbreviation run_loop :=
  (main_loop cfg cvtColor cv_split cv_merge clahe_apply filter2D strftime
             os_path_join).
Local Abbreviation run_main :=
  (main cfg cvtColor cv_split cv_merge clahe_apply filter2D strftime
        os_path_join).

Lemma save_images_keeps idx frame w rp ep w' :
  save idx frame w = (rp, ep, w') -> keeps w w'.
Proof.
  unfold save_images. intros H.
  destruct (SAVE_RAW cfg); destruct (SAVE_ENHANCED cfg);
    inversion H; subst; split; simpl; auto.
Qed.

Lemma capture_image_keeps idx w rp ep w' :
  capture idx w = (rp, ep, w') -> keeps w w'.
Proof.
  unfold capture_image. intros H.
  set (w1 := warmup (WARMUP_FRAMES cfg) (sleep (FOCUS_WAIT_SECONDS_ms cfg) w)) in *.
  assert (K1 : keeps w w1).
  { apply (keeps_trans _ (sleep (FOCUS_WAIT_SECONDS_ms cfg) w));
      [split; simpl; auto|apply warmup_keeps]. }
  destruct (cap_read w1) as [ret w2] eqn:CR.
  assert (K2 : keeps w1 w2).
  { unfold cap_read in CR. destruct (cam w1); inversion CR; subst;
      split; simpl; auto. }
  destruct ret as [frame|].
  - apply save_images_keeps in H.
    apply (keeps_trans _ _ _ K1 (keeps_trans _ _ _ K2 H)).
  - inversion H; subst. apply (keeps_trans _ _ _ K1 K2).
Qed.

Lemma data_rows_append r w :
  data_rows (csv_append r w) = (data_rows w ++ [r])%list.
Proof.
  unfold data_rows, csv_append. simpl. destruct (csv w) as [l|]; simpl.
  - rewrite flat_map_app. reflexivity.
  - reflexivity.
Qed.

Lemma data_rows_keeps w w' : keeps w w' -> data_rows w' = data_rows w.
Proof. intros [H _]. unfold data_rows. rewrite H. reflexivity. Qed.

(** What one pass does to [sample_idx] and to the log. *)
Lemma cycle_effect fuel idx w e idx' w' :
  run_cycle fuel idx w = Some (e, idx', w') ->
  (List.length (rx w') <= List.length (rx w))%nat
  /\ match e with
     | Skipped => idx' = idx /\ data_rows w' = data_rows w
     | Recorded =>
         idx' = idx + 1
         /\ exists r, data_rows w' = (data_rows w ++ [r])%list
                      /\ row_sample_idx r = idx
     end.
Proof.
  unfold cycle, wait_for_arduino, read_measurement. intros H.
  destruct (wait_loop fuel (ser_write "C" w) _ "AT_CAPTURE" 15)
    as [[ok w1]|] eqn:W1; [|discriminate].
  apply wait_loop_keeps in W1. destruct W1 as (K1 & _).
  assert (K1' : keeps w w1) by exact K1.
  destruct ok; cbn [negb] in H.
  - destruct (capture idx w1) as [[rp ep] w2] eqn:CI.
    apply capture_image_keeps in CI.
    destruct (measure_loop fuel (ser_write "W" w2) _ 20 no_meas)
      as [[m w3]|] eqn:RM; [|discriminate].
    apply measure_loop_keeps in RM. destruct RM as (K3 & _).
    destruct (wait_loop fuel (ser_write "H" w3) _ "AT_HOME" 15)
      as [[b w4]|] eqn:W2; [|discriminate].
    apply wait_loop_keeps in W2. destruct W2 as (K4 & _).
    assert (K : keeps w w4).
    { apply (keeps_trans _ _ _ K1'), (keeps_trans _ _ _ CI),
        (keeps_trans _ (ser_write "W" w2)); [split; simpl; auto|].
      apply (keeps_trans _ _ _ K3). exact K4. }
    inversion H; subst. split; [apply K|]. split; [reflexivity|].
    eexists. rewrite data_rows_append, (data_rows_keeps _ _ K).
    split; reflexivity.
  - inversion H; subst. split; [apply K1'|].
    split; [reflexivity|apply (data_rows_keeps _ _ K1')].
Qed.

(** With fuel for the longest wait, a pass always comes to an end. *)
Lemma cycle_total fuel idx w :
  (List.length (rx w) + 12 <= fuel)%nat ->
  exists e idx' w', run_cycle fuel idx w = Some (e, idx', w').
Proof.
  intros Hf. unfold cycle, wait_for_arduino, read_measurement.
  destruct (wait_loop_spec fuel (ser_write "C" w) (clock (ser_write "C" w))
              "AT_CAPTURE" 15)
    as (ok & w1 & seen1 & W1 & _); [discriminate| |].
  { pose proof (slack_start (ser_write "C" w) 15).
    pose proof (enough_fuel_bound w (ser_write "C" w) 15 fuel).
    simpl in *. lia. }
  rewrite W1. pose proof (wait_loop_keeps _ _ _ _ _ _ _ W1) as ((_ & L1) & _).
  simpl in L1.
  destruct ok; cbn [negb]; [|eauto].
  destruct (capture idx w1) as [[rp ep] w2] eqn:CI.
  pose proof (capture_image_keeps _ _ _ _ _ CI) as (_ & L2).
  destruct (measure_loop_total fuel (ser_write "W" w2)
              (clock (ser_write "W" w2)) 20 no_meas)
    as (m & w3 & RM & _ & L3 & _).
  { pose proof (slack_start (ser_write "W" w2) 20).
    pose proof (enough_fuel_bound w (ser_write "W" w2) 20 fuel).
    simpl in *. lia. }
  rewrite RM. simpl in L3.
  destruct (wait_loop_spec fuel (ser_write "H" w3) (clock (ser_write "H" w3))
              "AT_HOME" 15)
    as (b & w4 & seen4 & W2 & _); [discriminate| |].
  { pose proof (slack_start (ser_write "H" w3) 15).
    pose proof (enough_fuel_bound w (ser_write "H" w3) 15 fuel).
    simpl in *. lia. }
  rewrite W2. eauto.
Qed.

(** The rows a run of the loop adds to the log carry the indices
    [idx], [idx + 1], ... in order, and [sample_idx] ends one past the
    last of them. *)
Lemma main_loop_rows fuel inputs : forall idx w o idx',
  run_loop fuel inputs idx w = Some (o, idx') ->
  exists rows,
    data_rows (outcome_world o) = (data_rows w ++ rows)%list
    /\ map row_sample_idx rows = indices_from idx (List.length rows)
    /\ idx' = idx + Z.of_nat (List.length rows).
Proof.
  induction inputs as [|answer inputs IH]; intros idx w o idx' H.
  - inversion H; subst. exists []. simpl. rewrite app_nil_r.
    repeat split; auto; lia.
  - cbn [main_loop] in H.
    destruct (String.eqb (Py.lower (Py.strip answer)) "q").
    + inversion H; subst. exists []. simpl. rewrite app_nil_r.
      repeat split; auto; lia.
    + destruct (run_cycle fuel idx w) as [[[e idx1] w1]|] eqn:C; [|discriminate].
      apply cycle_effect in C. destruct C as (_ & C).
      apply IH in H. destruct H as (rows & Hrows & Hidx & Hlast).
      destruct e.
      * destruct C as (-> & Hd). exists rows. rewrite Hrows, Hd. auto.
      * destruct C as (-> & r & Hd & Hr). exists (r :: rows).
        rewrite Hrows, Hd, <- app_assoc. split; [reflexivity|].
        split.
        -- simpl. rewrite Hr, Hidx. unfold indices_from. simpl.
           f_equal; [lia|]. rewrite <- seq_shift, !map_map.
           apply map_ext. intros k. lia.
        -- simpl List.length. lia.
Qed.

Lemma main_loop_total fuel inputs : forall idx w,
  (List.length (rx w) + 12 <= fuel)%nat ->
  exists o idx', run_loop fuel inputs idx w = Some (o, idx').
Proof.
  induction inputs as [|answer inputs IH]; intros idx w Hf.
  - simpl. eauto.
  - cbn [main_loop].
    destruct (String.eqb (Py.lower (Py.strip answer)) "q"); [eauto|].
    destruct (cycle_total fuel idx w Hf) as (e & idx1 & w1 & C).
    rewrite C. apply IH.
    apply cycle_effect in C. destruct C as (L & _). lia.
Qed.

Lemma flush_loop_keeps n : forall w, keeps w (flush_loop n w).
Proof.
  induction n as [|n IH]; intros w; [apply keeps_refl|].
  simpl. destruct (in_waiting w); [|apply keeps_refl].
  destruct (readline w) as [raw w1] eqn:R. simpl.
  apply (keeps_trans _ _ _ (readline_keeps _ _ _ R) (IH w1)).
Qed.

(** C1 (as the code has it).  When only lines other than [AT_CAPTURE]
    arrive, the acknowledgment wait returns [False] after the 15 s timeout
    without raising, and the pass ends there: nothing but the capture
    command has been written to the port, no image is saved, no row is
    logged and [sample_idx] keeps its value. *)
Theorem capture_timeout_skips_rest_of_cycle fuel idx w :
  Forall (fun e => Py.strip (snd e) <> "AT_CAPTURE") (rx w) ->
  (enough_fuel w 15 <= fuel)%nat ->
  exists w',
    wait_for_arduino fuel (ser_write "C" w) "AT_CAPTURE" 15 = Some (false, w')
    /\ run_cycle fuel idx w = Some (Skipped, idx, w')
    /\ tx w' = tx w ++ "C"
    /\ files w' = files w
    /\ csv w' = csv w
    /\ 15 * 1000 < clock w' - clock w.
Proof.
  intros Hall Hf.
  destruct (wait_loop_spec fuel (ser_write "C" w) (clock (ser_write "C" w))
              "AT_CAPTURE" 15)
    as (b & w' & seen & W & Hrx & Hh & _ & Hres); [discriminate| |].
  { pose proof (slack_start (ser_write "C" w) 15).
    unfold enough_fuel in *. simpl in *. lia. }
  destruct b.
  - exfalso. destruct Hres as (pre & last & -> & Hlast & _).
    simpl in Hrx. rewrite Hrx in Hall.
    apply Forall_app in Hall. destruct Hall as [Hall _].
    apply Forall_app in Hall. destruct Hall as [_ Hall].
    apply Forall_inv in Hall. apply Hall. exact Hlast.
  - destruct Hres as (_ & Hlate). destruct Hh as (Htx & Hcsv & Hfiles & _).
    exists w'. unfold cycle. unfold wait_for_arduino at 1. rewrite W.
    unfold wait_for_arduino. rewrite W. simpl in *.
    repeat split; auto.
Qed.

(** C2.  Every pass of the loop that reaches the recording step adds one
    row carrying the current [sample_idx] and leaves [sample_idx] larger by
    exactly one, whatever the waits and the capture did; a run of [main]
    always ends, and the rows it added to the log are numbered
    1, 2, 3, ... in order. *)
Theorem sample_index_counts_recorded_cycles fuel inputs w :
  (List.length (rx w) + 12 <= fuel)%nat ->
  (forall idx w0 idx' w',
      run_cycle fuel idx w0 = Some (Recorded, idx', w') ->
      idx' = idx + 1
      /\ exists r, data_rows w' = (data_rows w0 ++ [r])%list
                   /\ row_sample_idx r = idx)
  /\ exists o rows,
       run_main fuel inputs w = Some o
       /\ data_rows (outcome_world o) = (data_rows w ++ rows)%list
       /\ map row_sample_idx rows = indices_from 1 (List.length rows).
Proof.
  intros Hf. split.
  - intros idx w0 idx' w' C. apply cycle_effect in C. apply C.
  - unfold main.
    assert (D0 : data_rows (ensure_csv_log w) = data_rows w).
    { unfold ensure_csv_log, data_rows.
      destruct (csv w) eqn:E; simpl; rewrite ?E; reflexivity. }
    destruct (init_serial (ensure_csv_log w)) as [w1|] eqn:IS.
    2:{ exists (Uncaught SerialException (ensure_csv_log w)), [].
        simpl. rewrite D0, app_nil_r. auto. }
    assert (K1 : keeps (ensure_csv_log w) w1).
    { unfold init_serial in IS. destruct (port_ok (ensure_csv_log w));
        [|discriminate]. inversion IS; subst.
      apply (keeps_trans _ (sleep 2000 (ensure_csv_log w)));
        [split; simpl; auto|apply flush_loop_keeps]. }
    assert (L1 : (List.length (rx w1) <= List.length (rx w))%nat).
    { destruct K1 as (_ & L). unfold ensure_csv_log in L.
      destruct (csv w); simpl in L; exact L. }
    unfold wait_for_arduino.
    destruct (wait_loop_spec fuel (sleep 500 (ser_write "Z" w1))
                (clock (sleep 500 (ser_write "Z" w1))) "ZERO_DONE" 20)
      as (ok & w2 & seen & W & _); [discriminate| |].
    { pose proof (slack_start (sleep 500 (ser_write "Z" w1)) 20).
      pose proof (enough_fuel_bound w (sleep 500 (ser_write "Z" w1)) 20 fuel).
      simpl in *. lia. }
    rewrite W. apply wait_loop_keeps in W. destruct W as (K2 & _).
    assert (K12 : keeps (ensure_csv_log w) w2).
    { apply (keeps_trans _ _ _ K1).
      apply (keeps_trans _ (sleep 500 (ser_write "Z" w1)));
        [split; simpl; auto|exact K2]. }
    destruct (init_camera w2) as [cap w3] eqn:IC.
    assert (K3 : keeps w2 w3).
    { unfold init_camera in IC. destruct (negb (cam_opened w2)).
      - inversion IC; subst. apply keeps_refl.
      - unfold cap_read in IC. destruct (cam w2); inversion IC; subst;
          split; simpl; auto. }
    pose proof (keeps_trans _ _ _ K12 K3) as K.
    destruct cap; cbn [negb].
    + destruct (main_loop_total fuel inputs 1 w3) as (o & idx' & ML).
      { destruct K as (_ & L). destruct K1 as (_ & L').
        unfold ensure_csv_log in L. destruct (csv w); simpl in L; lia. }
      rewrite ML. apply main_loop_rows in ML.
      destruct ML as (rows & Hrows & Hidx & _).
      exists o, rows. split; [reflexivity|].
      rewrite Hrows, (data_rows_keeps _ _ K), D0. auto.
    + exists (Finished w3), []. simpl.
      rewrite (data_rows_keeps _ _ K), D0, app_nil_r. auto.
Qed.

(** C9 (as the code has it).  [apply_crop] returns the frame unchanged
    whenever the rectangle it computes -- origin raised to 0, far corner
    measured from the raised origin and cut at the frame size -- is empty;
    for a rectangle whose origin is not negative that is every rectangle
    with no point in the frame.  The enhanced image that is saved is the
    enhancement of the cropped frame. *)
Theorem crop_keeps_frame_when_clamped_empty img :
  clamped_empty cfg img = true
  \/ (0 <= CROP_X cfg /\ 0 <= CROP_Y cfg /\ rect_misses_frame cfg img = true) ->
  apply_crop cfg img = img
  /\ forall idx frame w0,
       SAVE_ENHANCED cfg = true ->
       exists rp ep w',
         save idx frame w0 = (rp, ep, w')
         /\ files w'
            = (files w0
                 ++ (if SAVE_RAW cfg then [(rp, apply_crop cfg frame)] else [])
                 ++ [(ep, enhance (apply_crop cfg frame))])%list.
Proof.
  intros H. split.
  - apply apply_crop_clamped_empty.
    destruct H as [H|(Hx & Hy & H)]; [exact H|].
    rewrite <- misses_is_clamped_empty by assumption. exact H.
  - intros idx frame w0 He. unfold save_images. rewrite He.
    destruct (SAVE_RAW cfg); do 3 eexists; (split; [reflexivity|]); simpl.
    + rewrite <- app_assoc. reflexivity.
    + reflexivity.
Qed.

End ProgramFacts.

(** ** The program on concrete inputs *)

Lemma capture_timeout_skips_rest_of_cycle_witness :
  exists w',
    wait_for_arduino 20 (ser_write "C" Demo.world_no_capture_ack) "AT_CAPTURE" 15
    = Some (false, w')
    /\ Demo.cycle source_config 20 1 Demo.world_no_capture_ack
       = Some (Skipped, 1, w')
    /\ tx w' = tx Demo.world_no_capture_ack ++ "C"
    /\ files w' = files Demo.world_no_capture_ack
    /\ csv w' = csv Demo.world_no_capture_ack
    /\ 15 * 1000 < clock w' - clock Demo.world_no_capture_ack.
Proof.
  apply (capture_timeout_skips_rest_of_cycle source_config
           Demo.cvtColor Demo.cv_split Demo.cv_merge Demo.clahe_apply
           Demo.filter2D Demo.strftime Demo.os_path_join
           20 1 Demo.world_no_capture_ack); line_facts.
Defined.

(** C1 as the specification words it fails: the wait for [AT_CAPTURE]
    times out, and the pass ends without the weigh command ever being
    written. *)
Lemma capture_timeout_weigh_counterexample :
  (exists w1,
      wait_for_arduino 20 (ser_write "C" Demo.world_no_capture_ack)
                       "AT_CAPTURE" 15
      = Some (false, w1))
  /\ ~ (exists e idx' w',
          Demo.cycle source_config 20 1 Demo.world_no_capture_ack
          = Some (e, idx', w')
          /\ weigh_attempted w' = true).
Proof.
  split.
  - eexists. vm_compute. reflexivity.
  - intros (e & idx' & w' & H & Hw). vm_compute in H.
    inversion H; subst. vm_compute in Hw. discriminate Hw.
Qed.

Lemma sample_index_counts_recorded_cycles_witness :
  exists o rows,
    Demo.main source_config 20 [""; ""; "q"] Demo.world_two_cycles = Some o
    /\ data_rows (outcome_world o)
       = (data_rows Demo.world_two_cycles ++ rows)%list
    /\ map row_sample_idx rows = indices_from 1 (List.length rows).
Proof.
  apply (sample_index_counts_recorded_cycles source_config
           Demo.cvtColor Demo.cv_split Demo.cv_merge Demo.clahe_apply
           Demo.filter2D Demo.strftime Demo.os_path_join
           20 [""; ""; "q"] Demo.world_two_cycles).
  vm_compute. lia.
Defined.

Example two_cycles_indices :
  option_map (fun o => map row_sample_idx (data_rows (outcome_world o)))
             (Demo.main source_config 20 [""; ""; "q"] Demo.world_two_cycles)
  = Some [1; 2].
Proof. vm_compute. reflexivity. Qed.

Lemma crop_keeps_frame_when_clamped_empty_witness :
  apply_crop Demo.cfg_right Demo.frame4 = Demo.frame4.
Proof.
  apply (crop_keeps_frame_when_clamped_empty Demo.cfg_right
           Demo.cvtColor Demo.cv_split Demo.cv_merge Demo.clahe_apply
           Demo.filter2D Demo.strftime Demo.os_path_join Demo.frame4).
  right. repeat split; vm_compute; intros; discriminate.
Defined.

(** C9 as the specification words it fails: a rectangle lying wholly to
    the left of the frame has no point in it, yet the crop returns the two
    leftmost columns instead of the frame. *)
Lemma crop_outside_left_counterexample :
  CROP_X Demo.cfg_left + CROP_W Demo.cfg_left <= 0
  /\ rect_misses_frame Demo.cfg_left Demo.frame4 = true
  /\ apply_crop Demo.cfg_left Demo.frame4
     = repeat (repeat Demo.pixel 2) 4
  /\ apply_crop Demo.cfg_left Demo.frame4 <> Demo.frame4.
Proof.
  split; [vm_compute; discriminate|].
  split; [reflexivity|].
  split; [reflexivity|].
  vm_compute. discriminate.
Qed.

(** ** The parser on concrete text *)

Example split_strip_examples :
  Py.split "  a b   c " = ["a"; "b"; "c"]
  /\ Py.strip ("  a b" ++ CRLF) = "a b"
  /\ Py.split1_snd "=" "W=1=2" = Some "1=2"
  /\ Py.lower (Py.strip " Q ") = "q".
Proof. vm_compute. repeat split; reflexivity. Qed.

Example extract_number_examples :
  _extract_number "abc" = None
  /\ _extract_number "-.g" = None
  /\ _extract_number "1.2.3" = None
  /\ _extract_number "12.30g" = Some (123 # 10)
  /\ _extract_number "-0.50C" = Some (-1 # 2)
  /\ _extract_number "5." = Some (5 # 1)
  /\ _extract_number ".5%" = Some (1 # 2).
Proof. vm_compute. repeat split; reflexivity. Qed.

Example on_line_examples :
  on_line no_meas "MEASURED W=12.3g T=25.0C H=40.1%"
  = mkMeas (Some (123 # 10)) (Some (25 # 1)) (Some (401 # 10))
  /\ on_line (mkMeas (Some (123 # 10)) None None) "MEASURED W=abc H=41.0%"
     = mkMeas (Some (123 # 10)) None (Some (41 # 1))
  /\ on_line no_meas "BOOT OK" = no_meas.
Proof. vm_compute. repeat split; reflexivity. Qed.

(** * Further properties of the code *)

(** ** The parser *)

Lemma update_part_total m p : exists m', update_part m p = Some m'.
Proof.
  unfold update_part.
  destruct (Py.startswith "W=" (Py.strip p)) eqn:EW.
  { apply startswith_key in EW. destruct EW as [v ->]. simpl.
    destruct (_extract_number v); eauto. }
  destruct (Py.startswith "T=" (Py.strip p)) eqn:ET.
  { apply startswith_key in ET. destruct ET as [v ->]. simpl.
    destruct (_extract_number v); eauto. }
  destruct (Py.startswith "H=" (Py.strip p)) eqn:EH.
  { apply startswith_key in EH. destruct EH as [v ->]. simpl.
    destruct (_extract_number v); eauto. }
  eauto.
Qed.

(** X1.  No fragment makes the body of the [for] loop raise, so the
    [except] clause of [read_measurement] is never entered and the loop
    always runs over every fragment: processing a list of fragments is
    processing its first part, then the rest. *)
Theorem for_parts_never_abandons m a b :
  for_parts m (a ++ b)%list = for_parts (for_parts m a) b
  /\ (forall p, update_part m p <> None).
Proof.
  split.
  - revert m. induction a as [|p a IH]; intros m; [reflexivity|].
    simpl. destruct (update_part_total m p) as [m' E]. rewrite E. apply IH.
  - intros p. destruct (update_part_total m p) as [m' E]. congruence.
Qed.

Lemma latest_some old l v :
  old = Some v -> exists v', latest old l = Some v'.
Proof.
  intros ->. unfold latest. induction l as [|x l IH] using rev_ind.
  - simpl. eauto.
  - rewrite map_app. simpl. rewrite last_last. eauto.
Qed.

(** X2.  While lines are processed a field that holds a value keeps
    holding one: no line, parseable or not, makes it absent again. *)
Theorem parsed_fields_stay_present m lines :
  (forall v, weight m = Some v ->
             exists v', weight (fold_left on_line lines m) = Some v')
  /\ (forall v, temp_c m = Some v ->
                exists v', temp_c (fold_left on_line lines m) = Some v')
  /\ (forall v, hum_pct m = Some v ->
                exists v', hum_pct (fold_left on_line lines m) = Some v').
Proof.
  rewrite fold_on_line_spec. cbn [weight temp_c hum_pct].
  repeat split; intros v H; eapply latest_some; eassumption.
Qed.

Lemma keep_lstrip f s :
  (forall c, Py.isspace c = true -> f c = false) ->
  Py.keep f (Py.lstrip s) = Py.keep f s.
Proof.
  intros Hf. induction s as [|c r IH]; auto.
  simpl. destruct (Py.isspace c) eqn:E; [|reflexivity].
  rewrite (Hf _ E). exact IH.
Qed.

Lemma keep_rstrip f s :
  (forall c, Py.isspace c = true -> f c = false) ->
  Py.keep f (Py.rstrip s) = Py.keep f s.
Proof.
  intros Hf. induction s as [|c r IH]; auto.
  simpl. destruct (Py.rstrip r) as [|c' r'] eqn:E.
  - simpl in IH. destruct (Py.isspace c) eqn:Ec.
    + rewrite (Hf _ Ec). exact IH.
    + simpl. rewrite <- IH. reflexivity.
  - change (Py.keep f (String c (String c' r')))
      with (if f c then String c (Py.keep f (String c' r'))
            else Py.keep f (String c' r')).
    rewrite IH. reflexivity.
Qed.

Lemma space_not_num c : Py.isspace c = true -> is_num_char c = false.
Proof.
  destruct c as [[] [] [] [] [] [] [] []]; vm_compute; intros; congruence.
Qed.

Lemma extract_number_kept s :
  _extract_number s
  = match Py.keep is_num_char s with
    | EmptyString => None
    | n => Py.float n
    end.
Proof.
  unfold _extract_number, Py.strip.
  rewrite keep_rstrip, keep_lstrip by apply space_not_num.
  destruct (Py.keep is_num_char s); reflexivity.
Qed.

(** X3.  Characters that are not a digit, a point or a minus sign are
    dropped wherever they stand, also inside the number: the value read
    from a token is the value of the token without them. *)
Theorem extract_number_ignores_other_chars a j b :
  all_chars (fun c => negb (is_num_char c)) j = true ->
  _extract_number (a ++ j ++ b) = _extract_number (a ++ b).
Proof.
  intros Hj. rewrite !extract_number_kept, !keep_app.
  rewrite (keep_none _ _ Hj). reflexivity.
Qed.

Lemma extract_number_ignores_other_chars_witness :
  _extract_number ("1" ++ "e" ++ "5") = _extract_number ("1" ++ "5").
Proof.
  apply (extract_number_ignores_other_chars "1" "e" "5"). reflexivity.
Defined.

Lemma sign_cases s :
  (exists r, s = String "-" r
             /\ match s with
                | String "-" r' => (true, r')
                | _ => (false, s)
                end = (true, r))
  \/ (count_char "-" s = count_char "-" (drop 1 s)
      /\ match s with
         | String "-" r' => (true, r')
         | _ => (false, s)
         end = (false, s)).
Proof.
  destruct s as [|c r]; [right; auto|].
  destruct (Ascii.eqb_spec c "-") as [ -> | Hc].
  - left. exists r. auto.
  - right. split.
    + simpl. destruct (Ascii.eqb_spec c "-"); [contradiction|reflexivity].
    + destruct c as [[] [] [] [] [] [] [] []]; try reflexivity. congruence.
Qed.

Lemma digits_value_some s : forall acc a,
  Py.digits_value acc s = Some a ->
  all_chars Py.isdigit s = true /\ (0 <= acc -> 0 <= a).
Proof.
  induction s as [|c r IH]; intros acc a H; cbn [Py.digits_value] in H.
  - inversion H; subst. auto.
  - destruct (Py.isdigit c) eqn:E; [|discriminate].
    apply IH in H. destruct H as [H1 H2]. simpl. rewrite E. split; auto.
    intros Hacc. apply H2.
    pose proof (Nat2Z.is_nonneg (nat_of_ascii c - 48)). lia.
Qed.

Lemma count_digits c s :
  Py.isdigit c = false -> all_chars Py.isdigit s = true -> count_char c s = O.
Proof.
  intros Hc. induction s as [|d r IH]; simpl; auto.
  intros H. apply andb_prop in H. destruct H as [Hd Hr].
  destruct (Ascii.eqb_spec d c) as [ -> |]; [congruence|]. auto.
Qed.

Lemma cut_point_count c s :
  (count_char c s
   <= count_char c (fst (Py.cut_point s)) + count_char c (snd (Py.cut_point s))
      + (if Ascii.eqb c "." then 1 else 0))%nat.
Proof.
  induction s as [|d r IH]; [simpl; lia|].
  cbn [count_char Py.cut_point].
  destruct (Ascii.eqb_spec d ".") as [ -> | Hd].
  - cbn [fst snd count_char]. rewrite (Ascii.eqb_sym "." c).
    destruct (Ascii.eqb c "."); lia.
  - destruct (Py.cut_point r) as [a b]. cbn [fst snd count_char] in *.
    destruct (Ascii.eqb d c); lia.
Qed.

Lemma count_drop_le c s : (count_char c (drop 1 s) <= count_char c s)%nat.
Proof. destruct s as [|d r]; simpl; lia. Qed.

(** What [float] accepted: an optional minus sign, then digits around at
    most one point; the value is built from the digits. *)
Lemma float_inv s v :
  Py.float s = Some v ->
  exists (neg : bool) body a b scale,
    s = (if neg then String "-" body else body)
    /\ (neg = false -> count_char "-" s = count_char "-" (drop 1 s))
    /\ all_chars Py.isdigit (fst (Py.cut_point body)) = true
    /\ all_chars Py.isdigit (snd (Py.cut_point body)) = true
    /\ 0 <= a /\ 0 <= b /\ 0 < scale
    /\ v = Qred ((if neg then - (a * scale + b) else a * scale + b)
                   # Z.to_pos scale).
Proof.
  unfold Py.float. intros H.
  assert (Hgen : forall neg body,
             (let (ip, fp) := Py.cut_point body in
              if ((String.length ip =? 0) && (String.length fp =? 0))%nat
              then None
              else
                match Py.digits_value 0 ip, Py.digits_value 0 fp with
                | Some a, Some b =>
                    let scale := 10 ^ Z.of_nat (String.length fp) in
                    let num := a * scale + b in
                    Some (Qred ((if neg : bool then - num else num)
                                  # Z.to_pos scale))
                | _, _ => None
                end) = Some v ->
             exists a b scale,
               all_chars Py.isdigit (fst (Py.cut_point body)) = true
               /\ all_chars Py.isdigit (snd (Py.cut_point body)) = true
               /\ 0 <= a /\ 0 <= b /\ 0 < scale
               /\ v = Qred ((if neg then - (a * scale + b) else a * scale + b)
                              # Z.to_pos scale)).
  { intros neg body H0. destruct (Py.cut_point body) as [ip fp]. simpl.
    destruct ((String.length ip =? 0) && (String.length fp =? 0))%nat;
      [discriminate|].
    destruct (Py.digits_value 0 ip) as [a|] eqn:Ea; [|discriminate].
    destruct (Py.digits_value 0 fp) as [b|] eqn:Eb; [|discriminate].
    apply digits_value_some in Ea, Eb.
    destruct Ea as [Da Pa], Eb as [Db Pb].
    exists a, b, (10 ^ Z.of_nat (String.length fp)).
    assert (Hs : 0 < 10 ^ Z.of_nat (String.length fp))
      by (apply Z.pow_pos_nonneg; lia).
    assert (Hv : v = Qred ((if neg then - (a * 10 ^ Z.of_nat (String.length fp) + b)
                            else a * 10 ^ Z.of_nat (String.length fp) + b)
                             # Z.to_pos (10 ^ Z.of_nat (String.length fp))))
      by (cbv zeta in H0; inversion H0; reflexivity).
    split; [exact Da|]. split; [exact Db|]. split; [lia|]. split; [lia|].
    split; [exact Hs|exact Hv]. }
  destruct (sign_cases s) as [(r & Hs & Hm) | (Hc & Hm)]; rewrite Hm in H.
  - destruct (Hgen true r H) as (a & b & sc & H1 & H2 & H3 & H4 & H5 & H6).
    exists true, r, a, b, sc. repeat split; auto. discriminate.
  - destruct (Hgen false s H) as (a & b & sc & H1 & H2 & H3 & H4 & H5 & H6).
    exists false, s, a, b, sc. repeat split; auto.
Qed.

Lemma is_digit_point : Py.isdigit "." = false.
Proof. reflexivity. Qed.

Lemma is_digit_minus : Py.isdigit "-" = false.
Proof. reflexivity. Qed.

(** X4.  A token yields a value only if its digits, points and minus signs,
    read in order, form a plain decimal: at most one point, and no minus
    sign except in front.  Anything else (["1.2.3"], ["5-"], ["1-2"]) is
    skipped. *)
Theorem extract_number_accepts_plain_decimals_only val v :
  _extract_number val = Some v ->
  (count_char "." (Py.keep is_num_char val) <= 1)%nat
  /\ count_char "-" (drop 1 (Py.keep is_num_char val)) = O.
Proof.
  rewrite extract_number_kept. set (n := Py.keep is_num_char val).
  intros H. assert (F : Py.float n = Some v) by (destruct n; [discriminate|exact H]).
  clear H. apply float_inv in F.
  destruct F as (neg & body & a & b & sc & Hn & Hneg & Di & Df & _).
  pose proof (cut_point_count "." body) as Cp.
  pose proof (cut_point_count "-" body) as Cm.
  rewrite (count_digits _ _ is_digit_point Di),
    (count_digits _ _ is_digit_point Df) in Cp.
  rewrite (count_digits _ _ is_digit_minus Di),
    (count_digits _ _ is_digit_minus Df) in Cm.
  simpl in Cp, Cm.
  destruct neg.
  - rewrite Hn. simpl. split; lia.
  - subst body. specialize (Hneg eq_refl). split; lia.
Qed.

Lemma extract_number_accepts_plain_decimals_only_witness :
  (count_char "." (Py.keep is_num_char "-12.30g") <= 1)%nat
  /\ count_char "-" (drop 1 (Py.keep is_num_char "-12.30g")) = O.
Proof.
  apply (extract_number_accepts_plain_decimals_only "-12.30g" (-123 # 10)).
  reflexivity.
Defined.

Lemma count_keep c f s :
  (count_char c (Py.keep f s) <= count_char c s)%nat.
Proof.
  induction s as [|d r IH]; simpl; [lia|].
  destruct (f d); simpl; destruct (Ascii.eqb d c); lia.
Qed.

(** X5.  A token without a minus sign never yields a negative value. *)
Theorem extract_number_sign val v :
  count_char "-" val = O ->
  _extract_number val = Some v ->
  (0 <= v)%Q.
Proof.
  intros Hm. rewrite extract_number_kept. set (n := Py.keep is_num_char val).
  intros H. assert (F : Py.float n = Some v) by (destruct n; [discriminate|exact H]).
  clear H. apply float_inv in F.
  destruct F as (neg & body & a & b & sc & Hn & _ & _ & _ & Ha & Hb & Hsc & ->).
  assert (Hneg : neg = false).
  { destruct neg; auto. exfalso.
    pose proof (count_keep "-" is_num_char val) as Hk. fold n in Hk.
    rewrite Hn in Hk. simpl in Hk. lia. }
  subst neg. rewrite Qred_correct. unfold Qle. simpl. nia.
Qed.

Lemma extract_number_sign_witness : (0 <= 123 # 10)%Q.
Proof.
  apply (extract_number_sign "12.3g" (123 # 10)); reflexivity.
Defined.

(** ** The two waits *)

Lemma wait_loop_total fuel : forall w start e T,
  (slack w (start + T * 1000) < fuel)%nat ->
  clock w - start <= T * 1000 + SER_TIMEOUT ->
  exists b w',
    wait_loop fuel w start e T = Some (b, w')
    /\ same_host w w'
    /\ clock w <= clock w'
    /\ clock w' - start <= T * 1000 + SER_TIMEOUT.
Proof.
  induction fuel as [|fuel IH]; intros w start e T Hs Hin; [lia|].
  simpl. destruct (Z.ltb_spec (T * 1000) (clock w - start)) as [Hlate|Hok].
  - exists false, w. repeat split; auto; lia.
  - destruct (readline w) as [raw w1] eqn:R.
    pose proof (readline_host _ _ _ R) as Hh.
    pose proof (readline_clock _ _ _ R) as Hc.
    destruct (String.eqb (Py.strip raw) e).
    + exists true, w1. split; [reflexivity|]. split; [exact Hh|]. lia.
    + destruct (IH w1 start e T) as (b & w' & A & B & C & D).
      * pose proof (readline_slack _ _ _ (start + T * 1000) R). lia.
      * lia.
      * exists b, w'. split; [exact A|].
        split; [apply (same_host_trans _ _ _ Hh B)|]. lia.
Qed.

Lemma measure_loop_bound fuel : forall w start T m m' w',
  measure_loop fuel w start T m = Some (m', w') ->
  clock w - start <= T * 1000 + SER_TIMEOUT ->
  clock w <= clock w' /\ clock w' - start <= T * 1000 + SER_TIMEOUT.
Proof.
  induction fuel as [|fuel IH]; intros w start T m m' w' H Hin; [discriminate|].
  simpl in H. destruct (Z.ltb_spec (T * 1000) (clock w - start)) as [Hlate|Hok].
  - inversion H; subst. lia.
  - destruct (readline w) as [raw w1] eqn:R.
    pose proof (readline_clock _ _ _ R) as Hc.
    assert (Hrec : forall m0, measure_loop fuel w1 start T m0 = Some (m', w') ->
                     clock w <= clock w'
                     /\ clock w' - start <= T * 1000 + SER_TIMEOUT).
    { intros m0 H0. apply IH in H0; lia. }
    destruct (String.eqb (Py.strip raw) EmptyString); [apply (Hrec _ H)|].
    destruct (String.eqb (Py.strip raw) "WEIGH_DONE"); [|apply (Hrec _ H)].
    inversion H; subst. lia.
Qed.

(** X6.  [wait_for_arduino] always comes back, acknowledged or not, no
    later than the timeout plus one port read; it only consumes received
    lines: nothing is written to the port, the log, the image files or
    taken from the camera. *)
Theorem wait_is_bounded_and_read_only fuel w expected_msg timeout :
  0 <= timeout ->
  (enough_fuel w timeout <= fuel)%nat ->
  exists b w',
    wait_for_arduino fuel w expected_msg timeout = Some (b, w')
    /\ clock w <= clock w' <= clock w + timeout * 1000 + SER_TIMEOUT
    /\ tx w' = tx w /\ csv w' = csv w /\ files w' = files w
    /\ cam w' = cam w.
Proof.
  intros HT Hf. unfold wait_for_arduino.
  destruct (wait_loop_total fuel w (clock w) expected_msg timeout)
    as (b & w' & A & (H1 & H2 & H3 & H4 & _) & C & D).
  - pose proof (slack_start w timeout). lia.
  - unfold SER_TIMEOUT. lia.
  - exists b, w'. repeat split; auto; lia.
Qed.

Lemma wait_is_bounded_and_read_only_witness :
  exists b w',
    wait_for_arduino 20 Demo.world_no_capture_ack "AT_HOME" 15 = Some (b, w')
    /\ clock Demo.world_no_capture_ack <= clock w'
       <= clock Demo.world_no_capture_ack + 15 * 1000 + SER_TIMEOUT
    /\ tx w' = tx Demo.world_no_capture_ack
    /\ csv w' = csv Demo.world_no_capture_ack
    /\ files w' = files Demo.world_no_capture_ack
    /\ cam w' = cam Demo.world_no_capture_ack.
Proof.
  apply (wait_is_bounded_and_read_only 20 Demo.world_no_capture_ack
           "AT_HOME" 15); line_facts.
Defined.

(** X7.  [read_measurement] always comes back, with a record or without,
    no later than the timeout plus one port read, and it too only consumes
    received lines. *)
Theorem read_measurement_is_bounded_and_read_only fuel w timeout :
  0 <= timeout ->
  (enough_fuel w timeout <= fuel)%nat ->
  exists m w',
    read_measurement fuel w timeout = Some (m, w')
    /\ clock w <= clock w' <= clock w + timeout * 1000 + SER_TIMEOUT
    /\ tx w' = tx w /\ csv w' = csv w /\ files w' = files w
    /\ cam w' = cam w.
Proof.
  intros HT Hf. unfold read_measurement.
  destruct (measure_loop_total fuel w (clock w) timeout no_meas)
    as (m & w' & A & (H1 & H2 & H3 & H4 & _) & _).
  - pose proof (slack_start w timeout). lia.
  - pose proof (measure_loop_bound _ _ _ _ _ _ _ A) as B.
    exists m, w'. repeat split; auto; unfold SER_TIMEOUT in *; lia.
Qed.

Lemma read_measurement_is_bounded_and_read_only_witness :
  exists m w',
    read_measurement 20 Demo.world_two_cycles 20 = Some (m, w')
    /\ clock Demo.world_two_cycles <= clock w'
       <= clock Demo.world_two_cycles + 20 * 1000 + SER_TIMEOUT
    /\ tx w' = tx Demo.world_two_cycles
    /\ csv w' = csv Demo.world_two_cycles
    /\ files w' = files Demo.world_two_cycles
    /\ cam w' = cam Demo.world_two_cycles.
Proof.
  apply (read_measurement_is_bounded_and_read_only 20 Demo.world_two_cycles 20);
    line_facts.
Defined.

Lemma measure_loop_char fuel : forall w start T m,
  (slack w (start + T * 1000) < fuel)%nat ->
  exists m' w' seen,
    measure_loop fuel w start T m = Some (m', w')
    /\ rx w = (seen ++ rx w')%list
    /\ ((m' = no_meas /\ T * 1000 < clock w' - start
         /\ Forall (fun e => text e <> "WEIGH_DONE") seen)
        \/ (exists pre last,
               seen = (pre ++ [last])%list
               /\ text last = "WEIGH_DONE"
               /\ Forall (fun e => text e <> "WEIGH_DONE") pre
               /\ m' = fold_left on_line (map text pre) m)).
Proof.
  induction fuel as [|fuel IH]; intros w start T m Hs; [lia|].
  simpl. destruct (Z.ltb_spec (T * 1000) (clock w - start)) as [Hlate|Hok].
  - exists no_meas, w, []. split; [reflexivity|]. split; [reflexivity|].
    left. auto.
  - destruct (readline w) as [raw w1] eqn:R.
    assert (Hs1 : (slack w1 (start + T * 1000) < fuel)%nat).
    { pose proof (readline_slack _ _ _ (start + T * 1000) R). lia. }
    assert (Hcons : forall t m1,
               rx w = (t, raw) :: rx w1 ->
               Py.strip raw <> "WEIGH_DONE" ->
               on_line m (Py.strip raw) = m1 ->
               exists m' w' seen,
                 measure_loop fuel w1 start T m1 = Some (m', w')
                 /\ rx w = (seen ++ rx w')%list
                 /\ ((m' = no_meas /\ T * 1000 < clock w' - start
                      /\ Forall (fun e => text e <> "WEIGH_DONE") seen)
                     \/ (exists pre last,
                            seen = (pre ++ [last])%list
                            /\ text last = "WEIGH_DONE"
                            /\ Forall (fun e => text e <> "WEIGH_DONE") pre
                            /\ m' = fold_left on_line (map text pre) m))).
    { intros t m1 E Hne Hm1.
      destruct (IH w1 start T m1 Hs1) as (m' & w' & seen & A & B & C).
      exists m', w', ((t, raw) :: seen). split; [exact A|].
      split; [rewrite E, B; reflexivity|].
      destruct C as [(C1 & C2 & C3) | (pre & last & C1 & C2 & C3 & C4)].
      - left. repeat split; auto.
      - right. exists ((t, raw) :: pre), last. rewrite C1.
        split; [reflexivity|]. split; [exact C2|]. split; [auto|].
        simpl. unfold text at 2. simpl snd. rewrite Hm1. exact C4. }
    destruct (readline_rx _ _ _ R) as [(E0 & E & _) | (t & E & _)].
    + subst raw. change (Py.strip EmptyString) with EmptyString.
      simpl String.eqb. cbv iota. rewrite <- E. apply IH. exact Hs1.
    + destruct (String.eqb_spec (Py.strip raw) EmptyString) as [Hem|Hnem].
      * apply (Hcons t m E).
        -- rewrite Hem. discriminate.
        -- rewrite Hem. apply on_line_empty.
      * destruct (String.eqb_spec (Py.strip raw) "WEIGH_DONE") as [Hd|Hnd].
        -- exists (on_line m (Py.strip raw)), w1, [(t, raw)].
           split; [reflexivity|]. split; [exact E|].
           right. exists [], (t, raw). rewrite Hd, on_line_done.
           repeat split; auto.
        -- apply (Hcons t _ E Hnd eq_refl).
Qed.

(** X8.  Whatever the board sends, the record [read_measurement] returns
    is one of two things: all three fields absent, the timeout having
    elapsed with no [WEIGH_DONE] among the lines read; or the union of the
    fields of the lines read before the first [WEIGH_DONE], which is the
    last line read.  Lines after it stay in the buffer. *)
Theorem read_measurement_outcomes fuel w timeout :
  (enough_fuel w timeout <= fuel)%nat ->
  exists m w' seen,
    read_measurement fuel w timeout = Some (m, w')
    /\ rx w = (seen ++ rx w')%list
    /\ ((m = mkMeas None None None
         /\ timeout * 1000 < clock w' - clock w
         /\ Forall (fun e => Py.strip (snd e) <> "WEIGH_DONE") seen)
        \/ (exists pre last,
               seen = (pre ++ [last])%list
               /\ Py.strip (snd last) = "WEIGH_DONE"
               /\ Forall (fun e => Py.strip (snd e) <> "WEIGH_DONE") pre
               /\ m = union_last_wins (map text pre))).
Proof.
  intros Hf. unfold read_measurement.
  destruct (measure_loop_char fuel w (clock w) timeout no_meas)
    as (m & w' & seen & A & B & C).
  - pose proof (slack_start w timeout). lia.
  - exists m, w', seen. split; [exact A|]. split; [exact B|].
    destruct C as [C | (pre & last & C1 & C2 & C3 & C4)]; [left; exact C|].
    right. exists pre, last. rewrite <- fold_on_line_union. auto.
Qed.

Lemma read_measurement_outcomes_witness :
  exists m w' seen,
    read_measurement 20 Demo.world_two_cycles 20 = Some (m, w')
    /\ rx Demo.world_two_cycles = (seen ++ rx w')%list
    /\ ((m = mkMeas None None None
         /\ 20 * 1000 < clock w' - clock Demo.world_two_cycles
         /\ Forall (fun e => Py.strip (snd e) <> "WEIGH_DONE") seen)
        \/ (exists pre last,
               seen = (pre ++ [last])%list
               /\ Py.strip (snd last) = "WEIGH_DONE"
               /\ Forall (fun e => Py.strip (snd e) <> "WEIGH_DONE") pre
               /\ m = union_last_wins (map text pre))).
Proof.
  apply (read_measurement_outcomes 20 Demo.world_two_cycles 20). line_facts.
Defined.

Lemma wait_loop_late fuel : forall w start e T t raw rest,
  e <> EmptyString ->
  Py.strip raw = e ->
  rx w = (t, raw) :: rest ->
  (clock w - start) mod SER_TIMEOUT = 0 ->
  0 <= clock w - start <= T * 1000 / SER_TIMEOUT * SER_TIMEOUT ->
  t <= start + T * 1000 / SER_TIMEOUT * SER_TIMEOUT + SER_TIMEOUT ->
  (slack w (start + T * 1000) < fuel)%nat ->
  exists w',
    wait_loop fuel w start e T = Some (true, w')
    /\ clock w' = Z.max (clock w) t /\ rx w' = rest.
Proof.
  unfold SER_TIMEOUT.
  induction fuel as [|fuel IH];
    intros w start e T t raw rest Hne Hraw Hrx Hmod Hin Ht Hs; [lia|].
  assert (HT : T * 1000 / 2000 * 2000 <= T * 1000).
  { pose proof (Z.mul_div_le (T * 1000) 2000). lia. }
  simpl. destruct (Z.ltb_spec (T * 1000) (clock w - start)) as [Hlate|Hok];
    [lia|].
  destruct (readline w) as [raw0 w1] eqn:R.
  destruct (readline_rx _ _ _ R) as [(E0 & E & K & Hnext) | (t0 & E & Ht0 & K)].
  - subst raw0. change (Py.strip EmptyString) with EmptyString.
    destruct (String.eqb_spec EmptyString e) as [He|_]; [congruence|].
    rewrite Hrx in Hnext. unfold SER_TIMEOUT in *.
    destruct (IH w1 start e T t raw rest) as (w' & A & B & C); auto.
    + congruence.
    + rewrite K. replace (clock w + 2000 - start)
        with ((clock w - start) + 1 * 2000) by lia.
      rewrite Z.mod_add by lia. exact Hmod.
    + rewrite K.
      apply Z.mod_divide in Hmod; [|lia]. destruct Hmod as [q Hq].
      assert (q < T * 1000 / 2000) by nia. nia.
    + pose proof (readline_slack _ _ _ (start + T * 1000) R). lia.
    + exists w'. split; [exact A|]. split; [|exact C]. rewrite B, K. lia.
  - rewrite Hrx in E. inversion E; subst t0 raw0.
    rewrite Hraw, String.eqb_refl. exists w1. auto.
Qed.

(** X9.  The deadline is looked at only between reads.  When the timeout
    is not a whole number of port timeouts (15 s against reads of 2 s), the
    last check within it falls strictly before the deadline; on an
    otherwise silent line an acknowledgment that arrives after the timeout,
    but before the read begun at that check gives up, is still accepted:
    the wait then returns [True] later than its timeout. *)
Theorem late_acknowledgment_is_accepted fuel w expected_msg timeout t raw rest :
  expected_msg <> EmptyString ->
  Py.strip raw = expected_msg ->
  rx w = (t, raw) :: rest ->
  0 <= timeout ->
  (timeout * 1000) mod SER_TIMEOUT <> 0 ->
  clock w + timeout * 1000 < t ->
  t <= clock w + timeout * 1000
       + (SER_TIMEOUT - (timeout * 1000) mod SER_TIMEOUT) ->
  (enough_fuel w timeout <= fuel)%nat ->
  exists w',
    wait_for_arduino fuel w expected_msg timeout = Some (true, w')
    /\ clock w' = t /\ timeout * 1000 < clock w' - clock w /\ rx w' = rest.
Proof.
  intros Hne Hraw Hrx HT Hmod Hlate Ht Hf. unfold wait_for_arduino.
  pose proof (Z.div_mod (timeout * 1000) SER_TIMEOUT) as Hdm.
  unfold SER_TIMEOUT in *. specialize (Hdm ltac:(lia)).
  destruct (wait_loop_late fuel w (clock w) expected_msg timeout t raw rest)
    as (w' & A & B & C); auto.
  - rewrite Z.sub_diag. reflexivity.
  - rewrite Z.sub_diag. split; [lia|].
    assert (0 <= timeout * 1000 / 2000) by (apply Z.div_pos; lia).
    unfold SER_TIMEOUT. lia.
  - unfold SER_TIMEOUT. lia.
  - pose proof (slack_start w timeout). lia.
  - exists w'. split; [exact A|]. rewrite B. repeat split; auto; lia.
Qed.

Lemma late_acknowledgment_is_accepted_witness :
  exists w',
    wait_for_arduino 20
      (mkWorld 0 [(15500, "AT_HOME" ++ CRLF)] "" true true [] None [])
      "AT_HOME" 15
    = Some (true, w')
    /\ clock w' = 15500 /\ 15 * 1000 < clock w' - 0 /\ rx w' = [].
Proof.
  apply (late_acknowledgment_is_accepted 20
           (mkWorld 0 [(15500, "AT_HOME" ++ CRLF)] "" true true [] None [])
           "AT_HOME" 15 15500 ("AT_HOME" ++ CRLF) []); line_facts.
Defined.

(** ** Opening the port *)

Lemma flush_loop_spec n : forall w,
  (List.length (rx w) <= n)%nat ->
  exists dropped,
    rx w = (dropped ++ rx (flush_loop n w))%list
    /\ Forall (fun e => fst e <= clock w) dropped
    /\ clock (flush_loop n w) = clock w
    /\ in_waiting (flush_loop n w) = false
    /\ same_host w (flush_loop n w).
Proof.
  induction n as [|n IH]; intros w Hn.
  - exists []. simpl. repeat split; auto.
    unfold in_waiting. destruct (rx w); [reflexivity|simpl in Hn; lia].
  - simpl. destruct (in_waiting w) eqn:Ew.
    + unfold in_waiting in Ew. destruct (rx w) as [|[t raw] rest] eqn:Erx;
        [discriminate|].
      apply Z.leb_le in Ew.
      assert (R : readline w = (raw, set_rx rest (set_clock (clock w) w))).
      { unfold readline. rewrite Erx.
        destruct (Z.leb_spec t (clock w + SER_TIMEOUT)) as [_|Hgt];
          [|unfold SER_TIMEOUT in Hgt; lia].
        rewrite Z.max_l by lia. reflexivity. }
      rewrite R. simpl snd.
      destruct (IH (set_rx rest (set_clock (clock w) w)))
        as (dropped & A & B & C & D & E).
      { simpl in *. lia. }
      exists ((t, raw) :: dropped). simpl in A, B, C.
      split; [simpl; rewrite <- A; reflexivity|].
      split; [constructor; auto|]. split; [exact C|]. split; [exact D|].
      apply (same_host_trans _ _ _ (readline_host _ _ _ R) E).
    + exists []. repeat split; auto.
Qed.

(** X10.  Opening the port takes the two seconds of the settle delay and
    nothing more; what it throws away is a run of lines from the front of
    the buffer that had all arrived by then, and it stops only when no
    received line is waiting.  Nothing is written. *)
Theorem init_serial_settles_and_drains w w' :
  init_serial w = Some w' ->
  clock w' = clock w + 2000
  /\ in_waiting w' = false
  /\ tx w' = tx w /\ csv w' = csv w
  /\ exists dropped,
       rx w = (dropped ++ rx w')%list
       /\ Forall (fun e => fst e <= clock w + 2000) dropped.
Proof.
  unfold init_serial. destruct (port_ok w); [|discriminate].
  intros H. inversion H; subst. clear H.
  destruct (flush_loop_spec (List.length (rx (sleep 2000 w))) (sleep 2000 w))
    as (dropped & A & B & C & D & (E1 & E2 & _)); [lia|].
  simpl in A, B, C, E1, E2.
  split; [exact C|]. split; [exact D|]. split; [exact E1|].
  split; [exact E2|]. exists dropped. auto.
Qed.

Lemma init_serial_settles_and_drains_witness :
  exists w',
    init_serial Demo.world_two_cycles = Some w'
    /\ clock w' = clock Demo.world_two_cycles + 2000
    /\ in_waiting w' = false
    /\ rx w' = tl (rx Demo.world_two_cycles).
Proof.
  eexists. split; [reflexivity|].
  destruct (init_serial_settles_and_drains Demo.world_two_cycles _ eq_refl)
    as (A & B & _).
  split; [exact A|]. split; [exact B|reflexivity].
Defined.

(** ** The loop: what is sent, logged and saved *)

Lemma paths_in_app_l new1 new2 r : paths_in new1 r -> paths_in (new1 ++ new2) r.
Proof.
  unfold paths_in. rewrite map_app. intros [[A|A] [B|B]]; split; auto;
    right; apply in_or_app; auto.
Qed.

Lemma paths_in_app_r new1 new2 r : paths_in new2 r -> paths_in (new1 ++ new2) r.
Proof.
  unfold paths_in. rewrite map_app. intros [[A|A] [B|B]]; split; auto;
    right; apply in_or_app; auto.
Qed.

Lemma warmup_effect n : forall w,
  cam (warmup n w) = skipn n (cam w)
  /\ tx (warmup n w) = tx w /\ rx (warmup n w) = rx w
  /\ csv (warmup n w) = csv w /\ files (warmup n w) = files w
  /\ clock (warmup n w) = clock w.
Proof.
  induction n as [|n IH]; intros w; [repeat split|].
  simpl. destruct (IH (snd (cap_read w))) as (A & B & C & D & E & F).
  rewrite A, B, C, D, E, F. unfold cap_read.
  destruct (cam w) as [|f rest] eqn:Ec; simpl; rewrite ?Ec;
    repeat split; auto.
  rewrite skipn_nil. reflexivity.
Qed.

Section ProgramExtras.

Variable cfg : Config.
Variable cvtColor : Frame -> ColorCode -> Frame.
Variable cv_split : Frame -> Plane * Plane * Plane.
Variable cv_merge : Plane * Plane * Plane -> Frame.
Variable clahe_apply : Q -> nat * nat -> Plane -> Plane.
Variable filter2D : Frame -> Z -> list (list Q) -> Frame.
Variable strftime : string -> Z -> string.
Variable os_path_join : string -> string -> string.

Local Abbreviation save :=
  (save_images cfg cvtColor cv_split cv_merge clahe_apply filter2D strftime
               os_path_join).
Local Abbreviation capture :=
  (capture_image cfg cvtColor cv_split cv_merge clahe_apply filter2D strftime
                 os_path_join).
Local Abbreviation run_cycle :=
  (cycle cfg cvtColor cv_split cv_merge clahe_apply filter2D strftime
         os_path_join).
Local Abbreviation run_loop :=
  (main_loop cfg cvtColor cv_split cv_merge clahe_apply filter2D strftime
             os_path_join).
Local Abbreviation run_main :=
  (main cfg cvtColor cv_split cv_merge clahe_apply filter2D strftime
        os_path_join).

Lemma save_images_effect idx frame w rp ep w' :
  save idx frame w = (rp, ep, w') ->
  tx w' = tx w /\ rx w' = rx w /\ csv w' = csv w
  /\ exists new,
       files w' = (files w ++ new)%list
       /\ (rp = EmptyString \/ In rp (map fst new))
       /\ (ep = EmptyString \/ In ep (map fst new)).
Proof.
  unfold save_images. intros H.
  destruct (SAVE_RAW cfg); destruct (SAVE_ENHANCED cfg);
    inversion H; subst; simpl; repeat split.
  - eexists. split; [rewrite <- app_assoc; reflexivity|].
    simpl. split; right; auto.
  - eexists. split; [reflexivity|]. simpl. split; auto.
  - eexists. split; [reflexivity|]. simpl. split; auto.
  - exists []. rewrite app_nil_r. auto.
Qed.

Lemma capture_image_effect idx w rp ep w' :
  capture idx w = (rp, ep, w') ->
  tx w' = tx w /\ rx w' = rx w /\ csv w' = csv w
  /\ exists new,
       files w' = (files w ++ new)%list
       /\ (rp = EmptyString \/ In rp (map fst new))
       /\ (ep = EmptyString \/ In ep (map fst new)).
Proof.
  unfold capture_image. intros H.
  destruct (warmup_effect (WARMUP_FRAMES cfg)
              (sleep (FOCUS_WAIT_SECONDS_ms cfg) w))
    as (_ & A & B & C & D & _).
  set (w1 := warmup (WARMUP_FRAMES cfg) (sleep (FOCUS_WAIT_SECONDS_ms cfg) w)) in *.
  simpl in A, B, C, D.
  destruct (cap_read w1) as [ret w2] eqn:CR.
  assert (K : tx w2 = tx w1 /\ rx w2 = rx w1 /\ csv w2 = csv w1
              /\ files w2 = files w1).
  { unfold cap_read in CR. destruct (cam w1); inversion CR; subst; simpl; auto. }
  destruct K as (K1 & K2 & K3 & K4).
  destruct ret as [frame|].
  - apply save_images_effect in H.
    destruct H as (H1 & H2 & H3 & new & H4 & H5).
    split; [congruence|]. split; [congruence|]. split; [congruence|].
    exists new. split; [congruence|exact H5].
  - inversion H; subst.
    split; [congruence|]. split; [congruence|]. split; [congruence|].
    exists []. rewrite app_nil_r. split; [congruence|auto].
Qed.

(** What one pass writes to the port, saves and logs. *)
Lemma cycle_trace fuel idx w e idx' w' :
  run_cycle fuel idx w = Some (e, idx', w') ->
  tx w' = tx w ++ cycle_bytes e
  /\ exists new,
       files w' = (files w ++ new)%list
       /\ match e with
          | Skipped => csv w' = csv w /\ new = []
          | Recorded =>
              exists r,
                csv w' = Some (match csv w with Some l => l | None => [] end
                                 ++ [Data r])%list
                /\ paths_in new r
          end.
Proof.
  unfold cycle, wait_for_arduino, read_measurement. intros H.
  destruct (wait_loop fuel (ser_write "C" w) _ "AT_CAPTURE" 15)
    as [[ok w1]|] eqn:W1; [|discriminate].
  apply wait_loop_keeps in W1. destruct W1 as ((C1 & _) & T1 & F1).
  simpl in C1, T1, F1.
  destruct ok; cbn [negb] in H.
  - destruct (capture idx w1) as [[rp ep] w2] eqn:CI.
    apply capture_image_effect in CI.
    destruct CI as (T2 & _ & C2 & new & F2 & P2).
    destruct (measure_loop fuel (ser_write "W" w2) _ 20 no_meas)
      as [[m w3]|] eqn:RM; [|discriminate].
    apply measure_loop_keeps in RM. destruct RM as ((C3 & _) & T3 & F3).
    simpl in C3, T3, F3.
    destruct (wait_loop fuel (ser_write "H" w3) _ "AT_HOME" 15)
      as [[b w4]|] eqn:W2; [|discriminate].
    apply wait_loop_keeps in W2. destruct W2 as ((C4 & _) & T4 & F4).
    simpl in C4, T4, F4.
    inversion H; subst. simpl.
    split.
    + rewrite T4, T3, T2, T1, !append_assoc. reflexivity.
    + exists new. split; [congruence|].
      eexists. split.
      * unfold csv_append. simpl. rewrite C4, C3, C2, C1. reflexivity.
      * exact P2.
  - inversion H; subst. simpl. split; [exact T1|].
    exists []. rewrite app_nil_r. auto.
Qed.

Lemma main_loop_trace fuel inputs : forall idx w l o idx',
  csv w = Some l ->
  run_loop fuel inputs idx w = Some (o, idx') ->
  exists ends rows new,
    tx (outcome_world o) = tx w ++ commands ends
    /\ files (outcome_world o) = (files w ++ new)%list
    /\ csv (outcome_world o) = Some (l ++ map Data rows)%list
    /\ List.length rows = List.length (filter is_recorded ends)
    /\ Forall (paths_in new) rows.
Proof.
  induction inputs as [|answer inputs IH]; intros idx w l o idx' Hl H.
  - inversion H; subst. exists [], [], []. simpl.
    rewrite append_nil_r, !app_nil_r. auto.
  - cbn [main_loop] in H.
    destruct (String.eqb (Py.lower (Py.strip answer)) "q").
    + inversion H; subst. exists [], [], []. simpl.
      rewrite append_nil_r, !app_nil_r. auto.
    + destruct (run_cycle fuel idx w) as [[[e idx1] w1]|] eqn:C; [|discriminate].
      apply cycle_trace in C. destruct C as (T1 & new1 & F1 & C).
      destruct e.
      * destruct C as (C1 & ->). rewrite app_nil_r in F1.
        destruct (IH idx1 w1 l o idx') as (ends & rows & new & A1 & A2 & A3 & A4 & A5);
          [congruence|exact H|].
        exists (Skipped :: ends), rows, new. simpl.
        split; [rewrite A1, T1, append_assoc; reflexivity|].
        split; [congruence|]. auto.
      * destruct C as (r & C1 & P1). rewrite Hl in C1.
        destruct (IH idx1 w1 (l ++ [Data r])%list o idx')
          as (ends & rows & new & A1 & A2 & A3 & A4 & A5); [exact C1|exact H|].
        exists (Recorded :: ends), (r :: rows), (new1 ++ new)%list. simpl.
        split; [rewrite A1, T1, append_assoc; reflexivity|].
        split; [rewrite A2, F1, app_assoc; reflexivity|].
        split; [rewrite A3, <- app_assoc; reflexivity|].
        split; [lia|].
        constructor; [apply paths_in_app_l; exact P1|].
        apply (Forall_impl _ (fun r0 => paths_in_app_r new1 new r0) A5).
Qed.

Lemma init_serial_effect w w1 :
  init_serial w = Some w1 ->
  tx w1 = tx w /\ csv w1 = csv w /\ files w1 = files w
  /\ cam_opened w1 = cam_opened w
  /\ (List.length (rx w1) <= List.length (rx w))%nat.
Proof.
  unfold init_serial. destruct (port_ok w); [|discriminate].
  intros H. inversion H; subst. clear H.
  destruct (flush_loop_spec (List.length (rx (sleep 2000 w))) (sleep 2000 w))
    as (dropped & A & _ & _ & _ & (E1 & E2 & E3 & _ & _ & E6)); [lia|].
  apply (f_equal (@List.length _)) in A. rewrite length_app in A.
  simpl in A, E1, E2, E3, E6. simpl. repeat split; auto. lia.
Qed.

(** The whole run, from the first write to the last. *)
Lemma main_trace fuel inputs w o :
  run_main fuel inputs w = Some o ->
  port_ok w = true ->
  exists ends rows new,
    tx (outcome_world o) = tx w ++ "Z" ++ commands ends
    /\ files (outcome_world o) = (files w ++ new)%list
    /\ csv (outcome_world o) = Some (log_base w ++ map Data rows)%list
    /\ List.length rows = List.length (filter is_recorded ends)
    /\ Forall (paths_in new) rows.
Proof.
  unfold main. intros H Hp.
  assert (E0 : csv (ensure_csv_log w) = Some (log_base w)
               /\ tx (ensure_csv_log w) = tx w
               /\ files (ensure_csv_log w) = files w
               /\ port_ok (ensure_csv_log w) = port_ok w).
  { unfold ensure_csv_log, log_base. destruct (csv w) eqn:E; simpl; auto. }
  destruct E0 as (E1 & E2 & E3 & E4).
  destruct (init_serial (ensure_csv_log w)) as [w1|] eqn:IS.
  2:{ unfold init_serial in IS. rewrite E4, Hp in IS. discriminate. }
  apply init_serial_effect in IS. destruct IS as (I1 & I2 & I3 & _).
  unfold wait_for_arduino in H.
  destruct (wait_loop fuel (sleep 500 (ser_write "Z" w1)) _ "ZERO_DONE" 20)
    as [[ok w2]|] eqn:W; [|discriminate].
  apply wait_loop_keeps in W. destruct W as ((C2 & _) & T2 & F2).
  simpl in C2, T2, F2.
  destruct (init_camera w2) as [cap w3] eqn:IC.
  assert (K3 : tx w3 = tx w2 /\ csv w3 = csv w2 /\ files w3 = files w2).
  { unfold init_camera in IC. destruct (negb (cam_opened w2)).
    - inversion IC; subst. auto.
    - unfold cap_read in IC. destruct (cam w2); inversion IC; subst;
        simpl; auto. }
  destruct K3 as (T3 & C3 & F3).
  destruct cap; cbn [negb] in H.
  - destruct (run_loop fuel inputs 1 w3) as [[o' idx']|] eqn:ML;
      [|discriminate].
    inversion H; subst o'. clear H.
    apply (main_loop_trace _ _ _ _ (log_base w)) in ML; [|congruence].
    destruct ML as (ends & rows & new & A1 & A2 & A3 & A4 & A5).
    exists ends, rows, new.
    split; [rewrite A1, T3, T2, I1, E2, append_assoc; reflexivity|].
    split; [congruence|]. auto.
  - inversion H; subst. exists [], [], []. simpl.
    rewrite !app_nil_r.
    split; [rewrite T3, T2, I1, E2; reflexivity|].
    split; [congruence|]. split; [congruence|]. auto.
Qed.

Lemma data_rows_of_log w w' rows :
  csv w' = Some (log_base w ++ map Data rows)%list ->
  data_rows w' = (data_rows w ++ rows)%list.
Proof.
  intros H. unfold data_rows. rewrite H, flat_map_app. f_equal.
  - unfold log_base. destruct (csv w); reflexivity.
  - clear H. induction rows as [|r rows IH]; simpl; congruence.
Qed.

(** X11.  Over a whole run the bytes written to the port are [Z] once,
    then for each pass of the loop either [C] alone or [C], [W], [H] in that
    order: [W] is never sent without a preceding [C], every [W] is followed
    by [H], and the log gains exactly one row per [C W H]. *)
Theorem main_command_sequence fuel inputs w o :
  run_main fuel inputs w = Some o ->
  port_ok w = true ->
  exists ends rows,
    tx (outcome_world o) = tx w ++ "Z" ++ commands ends
    /\ data_rows (outcome_world o) = (data_rows w ++ rows)%list
    /\ List.length rows = List.length (filter is_recorded ends).
Proof.
  intros H Hp. destruct (main_trace _ _ _ _ H Hp)
    as (ends & rows & new & A1 & _ & A3 & A4 & _).
  exists ends, rows. split; [exact A1|]. split; [|exact A4].
  apply data_rows_of_log. exact A3.
Qed.

(** X12.  A run never rewrites the log: what the file held stays in front
    (the header alone when the file was missing), and rows are only added
    after it.  That holds when the port cannot be opened too. *)
Theorem main_appends_to_log fuel inputs w o :
  run_main fuel inputs w = Some o ->
  exists rows,
    csv (outcome_world o) = Some (log_base w ++ map Data rows)%list.
Proof.
  intros H. destruct (port_ok w) eqn:Hp.
  - destruct (main_trace _ _ _ _ H Hp) as (_ & rows & _ & _ & _ & A3 & _).
    exists rows. exact A3.
  - unfold main in H.
    assert (E : init_serial (ensure_csv_log w) = None).
    { unfold init_serial, ensure_csv_log.
      destruct (csv w); simpl; rewrite Hp; reflexivity. }
    rewrite E in H. inversion H; subst. exists []. simpl.
    rewrite app_nil_r. unfold ensure_csv_log, log_base.
    destruct (csv w) eqn:Ec; simpl; auto.
Qed.

(** X13.  Every image path a run writes into a row of the log is the path
    of an image the run handed to [cv2.imwrite]; a row names no image
    otherwise (its path is empty). *)
Theorem logged_paths_were_written fuel inputs w o :
  run_main fuel inputs w = Some o ->
  port_ok w = true ->
  exists rows,
    data_rows (outcome_world o) = (data_rows w ++ rows)%list
    /\ Forall (fun r =>
                 (row_raw_path r = EmptyString
                  \/ In (row_raw_path r) (written_paths (outcome_world o)))
                 /\ (row_enh_path r = EmptyString
                     \/ In (row_enh_path r) (written_paths (outcome_world o))))
              rows.
Proof.
  intros H Hp. destruct (main_trace _ _ _ _ H Hp)
    as (_ & rows & new & _ & A2 & A3 & _ & A5).
  exists rows. split; [apply data_rows_of_log; exact A3|].
  revert A5. apply Forall_impl. intros r P.
  apply (paths_in_app_r (files w) new) in P.
  unfold written_paths. rewrite A2. exact P.
Qed.

(** X14.  When the camera cannot be opened the run ends right after the
    tare exchange: the operator is never prompted, [Z] is the only byte
    sent, no image is saved and no row logged. *)
Theorem main_without_camera fuel inputs w :
  port_ok w = true ->
  cam_opened w = false ->
  (List.length (rx w) + 12 <= fuel)%nat ->
  exists w',
    run_main fuel inputs w = Some (Finished w')
    /\ tx w' = tx w ++ "Z"
    /\ csv w' = Some (log_base w)
    /\ files w' = files w.
Proof.
  intros Hp Hc Hf. unfold main.
  assert (E0 : csv (ensure_csv_log w) = Some (log_base w)
               /\ tx (ensure_csv_log w) = tx w
               /\ files (ensure_csv_log w) = files w
               /\ port_ok (ensure_csv_log w) = port_ok w
               /\ cam_opened (ensure_csv_log w) = cam_opened w
               /\ rx (ensure_csv_log w) = rx w).
  { unfold ensure_csv_log, log_base. destruct (csv w) eqn:E; simpl;
      repeat split; auto. }
  destruct E0 as (E1 & E2 & E3 & E4 & E5 & E6).
  destruct (init_serial (ensure_csv_log w)) as [w1|] eqn:IS.
  2:{ unfold init_serial in IS. rewrite E4, Hp in IS. discriminate. }
  apply init_serial_effect in IS. destruct IS as (I1 & I2 & I3 & I4 & I5).
  unfold wait_for_arduino.
  destruct (wait_loop_total fuel (sleep 500 (ser_write "Z" w1))
              (clock (sleep 500 (ser_write "Z" w1))) "ZERO_DONE" 20)
    as (ok & w2 & W & (H1 & H2 & H3 & _ & _ & H6) & _).
  - pose proof (slack_start (sleep 500 (ser_write "Z" w1)) 20).
    pose proof (enough_fuel_bound w (sleep 500 (ser_write "Z" w1)) 20 fuel).
    simpl in *. rewrite E6 in I5. lia.
  - unfold SER_TIMEOUT. lia.
  - rewrite W. simpl in H1, H2, H3, H6.
    unfold init_camera. rewrite H6, I4, E5, Hc. simpl.
    exists w2. split; [reflexivity|].
    split; [rewrite H1, I1, E2; reflexivity|].
    split; congruence.
Qed.

Lemma skipn_head {A} n : forall (l : list A) f rest d,
  skipn n l = f :: rest -> nth n l d = f.
Proof.
  induction n as [|n IH]; intros l f rest d H.
  - simpl in H. subst l. reflexivity.
  - destruct l as [|a l]; [discriminate|]. simpl in *. eapply IH; eauto.
Qed.

Lemma capture_image_no_frame idx w :
  nth (WARMUP_FRAMES cfg) (cam w) None = None ->
  exists w',
    capture idx w = (EmptyString, EmptyString, w')
    /\ tx w' = tx w /\ rx w' = rx w /\ csv w' = csv w /\ files w' = files w.
Proof.
  intros Hn. unfold capture_image.
  destruct (warmup_effect (WARMUP_FRAMES cfg)
              (sleep (FOCUS_WAIT_SECONDS_ms cfg) w))
    as (Ac & A & B & C & D & _).
  set (w1 := warmup (WARMUP_FRAMES cfg) (sleep (FOCUS_WAIT_SECONDS_ms cfg) w)) in *.
  simpl in Ac, A, B, C, D. unfold cap_read.
  destruct (cam w1) as [|f rest] eqn:Ec.
  - exists w1. auto.
  - symmetry in Ac. apply (skipn_head _ _ _ _ None) in Ac.
    rewrite Hn in Ac. subst f.
    exists (set_cam rest w1). simpl. auto.
Qed.

(** X15.  A camera that yields no frame does not stop the pass: once
    [AT_CAPTURE] was acknowledged the weigh and home commands are still
    sent and the row is still logged, with both image paths empty and no
    image saved. *)
Theorem cycle_without_frame fuel idx w w1 :
  wait_for_arduino fuel (ser_write "C" w) "AT_CAPTURE" 15 = Some (true, w1) ->
  nth (WARMUP_FRAMES cfg) (cam w) None = None ->
  (List.length (rx w) + 12 <= fuel)%nat ->
  exists r w',
    run_cycle fuel idx w = Some (Recorded, idx + 1, w')
    /\ data_rows w' = (data_rows w ++ [r])%list
    /\ row_sample_idx r = idx
    /\ row_raw_path r = EmptyString /\ row_enh_path r = EmptyString
    /\ files w' = files w
    /\ tx w' = tx w ++ "CWH".
Proof.
  intros W1 Hn Hf. unfold cycle. rewrite W1. cbn [negb].
  unfold wait_for_arduino in *.
  destruct (wait_loop_total fuel (ser_write "C" w) (clock (ser_write "C" w))
              "AT_CAPTURE" 15)
    as (b0 & w0 & W0 & (S1 & S2 & S3 & S4 & _) & _).
  { pose proof (slack_start (ser_write "C" w) 15).
    pose proof (enough_fuel_bound w (ser_write "C" w) 15 fuel).
    simpl in *. lia. }
  { unfold SER_TIMEOUT. lia. }
  rewrite W1 in W0. inversion W0; subst b0 w0. clear W0.
  simpl in S1, S2, S3, S4.
  pose proof (wait_loop_keeps _ _ _ _ _ _ _ W1) as ((_ & L1) & _).
  simpl in L1.
  destruct (capture_image_no_frame idx w1) as (w2 & CI & T2 & R2 & C2 & F2);
    [rewrite S4; exact Hn|].
  rewrite CI. unfold read_measurement.
  destruct (measure_loop_total fuel (ser_write "W" w2)
              (clock (ser_write "W" w2)) 20 no_meas)
    as (m & w3 & RM & (M1 & M2 & M3 & _) & L3 & _).
  { pose proof (slack_start (ser_write "W" w2) 20).
    pose proof (enough_fuel_bound w (ser_write "W" w2) 20 fuel).
    simpl in *. rewrite R2 in *. lia. }
  rewrite RM. simpl in M1, M2, M3, L3.
  destruct (wait_loop_total fuel (ser_write "H" w3) (clock (ser_write "H" w3))
              "AT_HOME" 15)
    as (b4 & w4 & W4 & (H1 & H2 & H3 & _) & _).
  { pose proof (slack_start (ser_write "H" w3) 15).
    pose proof (enough_fuel_bound w (ser_write "H" w3) 15 fuel).
    simpl in *. rewrite R2 in *. lia. }
  { unfold SER_TIMEOUT. lia. }
  rewrite W4. simpl in H1, H2, H3.
  eexists. eexists. split; [reflexivity|].
  rewrite data_rows_append. simpl.
  split.
  - f_equal. unfold data_rows. rewrite H2, M2, C2, S2. reflexivity.
  - split; [reflexivity|]. split; [reflexivity|]. split; [reflexivity|].
    split; [congruence|].
    rewrite H1, M1, T2, S1, !append_assoc. reflexivity.
Qed.

(** X18.  A measurement that never completes does not stop the pass
    either: with [AT_CAPTURE] acknowledged and no [WEIGH_DONE] among the
    lines still to come, the home command is still sent and the row is
    still logged, its three numeric fields empty. *)
Theorem cycle_without_measurement fuel idx w w1 :
  wait_for_arduino fuel (ser_write "C" w) "AT_CAPTURE" 15 = Some (true, w1) ->
  Forall (fun e => Py.strip (snd e) <> "WEIGH_DONE") (rx w1) ->
  (List.length (rx w) + 12 <= fuel)%nat ->
  exists r w',
    run_cycle fuel idx w = Some (Recorded, idx + 1, w')
    /\ data_rows w' = (data_rows w ++ [r])%list
    /\ row_sample_idx r = idx
    /\ row_weight_g r = None /\ row_temp_c r = None
    /\ row_humidity_pct r = None
    /\ tx w' = tx w ++ "CWH".
Proof.
  intros W1 Hall Hf. unfold cycle. rewrite W1. cbn [negb].
  unfold wait_for_arduino in *.
  pose proof (wait_loop_keeps _ _ _ _ _ _ _ W1) as ((C1 & L1) & T1 & _).
  simpl in C1, L1, T1.
  destruct (capture idx w1) as [[rp ep] w2] eqn:CI.
  apply capture_image_effect in CI. destruct CI as (T2 & R2 & C2 & _).
  unfold read_measurement.
  destruct (measure_loop_timeout fuel (ser_write "W" w2)
              (clock (ser_write "W" w2)) 20 no_meas (rx w1) [])
    as (w3 & RM & _).
  { simpl. rewrite app_nil_r. exact R2. }
  { exact Hall. }
  { constructor. }
  { unfold SER_TIMEOUT. lia. }
  { pose proof (slack_start (ser_write "W" w2) 20).
    pose proof (enough_fuel_bound w (ser_write "W" w2) 20 fuel).
    simpl in *. rewrite R2 in *. lia. }
  rewrite RM.
  pose proof (measure_loop_keeps _ _ _ _ _ _ _ RM) as ((C3 & L3) & T3 & _).
  simpl in C3, L3, T3.
  destruct (wait_loop_total fuel (ser_write "H" w3) (clock (ser_write "H" w3))
              "AT_HOME" 15)
    as (b4 & w4 & W4 & (H1 & H2 & _) & _).
  { pose proof (slack_start (ser_write "H" w3) 15).
    pose proof (enough_fuel_bound w (ser_write "H" w3) 15 fuel).
    simpl in *. rewrite R2 in *. lia. }
  { unfold SER_TIMEOUT. lia. }
  rewrite W4. simpl in H1, H2.
  eexists. eexists. split; [reflexivity|].
  rewrite data_rows_append. simpl.
  split.
  - f_equal. unfold data_rows. rewrite H2, C3, C2, C1. reflexivity.
  - repeat (split; [reflexivity|]).
    rewrite H1, T3, T2, T1, !append_assoc. reflexivity.
Qed.

End ProgramExtras.

Lemma main_command_sequence_witness :
  exists o ends rows,
    Demo.main source_config 20 [""; ""; "q"] Demo.world_two_cycles = Some o
    /\ tx (outcome_world o) = tx Demo.world_two_cycles ++ "Z" ++ commands ends
    /\ data_rows (outcome_world o)
       = (data_rows Demo.world_two_cycles ++ rows)%list
    /\ List.length rows = List.length (filter is_recorded ends).
Proof.
  unfold Demo.main.
  destruct (main source_config Demo.cvtColor Demo.cv_split Demo.cv_merge
              Demo.clahe_apply Demo.filter2D Demo.strftime Demo.os_path_join
              20 [""; ""; "q"] Demo.world_two_cycles) as [o|] eqn:E;
    [|vm_compute in E; discriminate E].
  destruct (main_command_sequence _ _ _ _ _ _ _ _ _ _ _ _ E eq_refl)
    as (ends & rows & A).
  exists o, ends, rows. split; [reflexivity|exact A].
Defined.

Lemma main_appends_to_log_witness :
  exists o rows,
    Demo.main source_config 20 [""; ""; "q"] Demo.world_two_cycles = Some o
    /\ csv (outcome_world o)
       = Some (log_base Demo.world_two_cycles ++ map Data rows)%list.
Proof.
  unfold Demo.main.
  destruct (main source_config Demo.cvtColor Demo.cv_split Demo.cv_merge
              Demo.clahe_apply Demo.filter2D Demo.strftime Demo.os_path_join
              20 [""; ""; "q"] Demo.world_two_cycles) as [o|] eqn:E;
    [|vm_compute in E; discriminate E].
  destruct (main_appends_to_log _ _ _ _ _ _ _ _ _ _ _ _ E) as (rows & A).
  exists o, rows. split; [reflexivity|exact A].
Defined.

Lemma logged_paths_were_written_witness :
  exists o rows,
    Demo.main source_config 20 [""; ""; "q"] Demo.world_two_cycles = Some o
    /\ data_rows (outcome_world o)
       = (data_rows Demo.world_two_cycles ++ rows)%list
    /\ Forall (fun r =>
                 (row_raw_path r = EmptyString
                  \/ In (row_raw_path r) (written_paths (outcome_world o)))
                 /\ (row_enh_path r = EmptyString
                     \/ In (row_enh_path r) (written_paths (outcome_world o))))
              rows.
Proof.
  unfold Demo.main.
  destruct (main source_config Demo.cvtColor Demo.cv_split Demo.cv_merge
              Demo.clahe_apply Demo.filter2D Demo.strftime Demo.os_path_join
              20 [""; ""; "q"] Demo.world_two_cycles) as [o|] eqn:E;
    [|vm_compute in E; discriminate E].
  destruct (logged_paths_were_written _ _ _ _ _ _ _ _ _ _ _ _ E eq_refl)
    as (rows & A).
  exists o, rows. split; [reflexivity|exact A].
Defined.

Lemma main_without_camera_witness :
  exists w',
    Demo.main source_config 20 [""; "q"]
              (mkWorld 0 [(2500, "ZERO_DONE" ++ CRLF)] "" true false [] None [])
    = Some (Finished w')
    /\ tx w' = "" ++ "Z"
    /\ csv w' = Some [Header]
    /\ files w' = [].
Proof.
  apply (main_without_camera source_config
           Demo.cvtColor Demo.cv_split Demo.cv_merge Demo.clahe_apply
           Demo.filter2D Demo.strftime Demo.os_path_join
           20 [""; "q"]
           (mkWorld 0 [(2500, "ZERO_DONE" ++ CRLF)] "" true false [] None []));
    line_facts.
Defined.

Lemma cycle_without_frame_witness :
  exists r w',
    Demo.cycle source_config 20 7
               (mkWorld 0 [(900, "AT_CAPTURE" ++ CRLF)] "" true true
                        [Some Demo.frame4; Some Demo.frame4] None [])
    = Some (Recorded, 7 + 1, w')
    /\ data_rows w' = ([] ++ [r])%list
    /\ row_sample_idx r = 7
    /\ row_raw_path r = EmptyString /\ row_enh_path r = EmptyString
    /\ files w' = []
    /\ tx w' = "" ++ "CWH".
Proof.
  destruct (wait_for_arduino 20
              (ser_write "C"
                 (mkWorld 0 [(900, "AT_CAPTURE" ++ CRLF)] "" true true
                          [Some Demo.frame4; Some Demo.frame4] None []))
              "AT_CAPTURE" 15) as [[[] w1]|] eqn:E;
    try (vm_compute in E; discriminate E).
  apply (cycle_without_frame source_config
           Demo.cvtColor Demo.cv_split Demo.cv_merge Demo.clahe_apply
           Demo.filter2D Demo.strftime Demo.os_path_join
           20 7
           (mkWorld 0 [(900, "AT_CAPTURE" ++ CRLF)] "" true true
                    [Some Demo.frame4; Some Demo.frame4] None [])
           w1 E); line_facts.
Defined.

(** ** The crop window *)

Lemma Forall_firstn {A} (P : A -> Prop) n : forall l,
  Forall P l -> Forall P (firstn n l).
Proof.
  induction n as [|n IH]; intros l H; [constructor|].
  destruct l as [|a l]; [constructor|]. simpl.
  constructor; [apply (Forall_inv H)|apply IH, (Forall_inv_tail H)].
Qed.

Lemma Forall_skipn {A} (P : A -> Prop) n : forall l,
  Forall P l -> Forall P (skipn n l).
Proof.
  induction n as [|n IH]; intros l H; [exact H|].
  destruct l as [|a l]; [constructor|]. simpl.
  apply IH, (Forall_inv_tail H).
Qed.

Lemma slice_length {A} lo hi (l : list A) :
  0 <= lo -> lo <= hi -> hi <= Z.of_nat (List.length l) ->
  List.length (slice lo hi l) = Z.to_nat (hi - lo).
Proof.
  intros H1 H2 H3. unfold slice. rewrite length_firstn, length_skipn. lia.
Qed.

Lemma slice_nth {A} lo hi (l : list A) i d :
  (i < Z.to_nat (hi - lo))%nat ->
  nth i (slice lo hi l) d = nth (Z.to_nat lo + i) l d.
Proof.
  intros H. unfold slice. rewrite nth_firstn.
  apply Nat.ltb_lt in H. rewrite H. apply nth_skipn.
Qed.

(** X16.  With cropping on and a clamped rectangle that is not empty, the
    crop of a frame is the window of the frame that starts at the clamped
    origin: it has [y2 - y] rows of [x2 - x] pixels, and its pixel [(i, j)]
    is the frame's pixel [(y + i, x + j)]. *)
Theorem apply_crop_window cfg img :
  ENABLE_CROP cfg = true ->
  clamped_empty cfg img = false ->
  rectangular img ->
  let x := Z.max 0 (CROP_X cfg) in
  let y := Z.max 0 (CROP_Y cfg) in
  let x2 := Z.min (frame_w img) (x + CROP_W cfg) in
  let y2 := Z.min (frame_h img) (y + CROP_H cfg) in
  frame_h (apply_crop cfg img) = y2 - y
  /\ Forall (fun row => Z.of_nat (List.length row) = x2 - x)
            (apply_crop cfg img)
  /\ forall i j d,
       (i < Z.to_nat (y2 - y))%nat -> (j < Z.to_nat (x2 - x))%nat ->
       nth j (nth i (apply_crop cfg img) []) d
       = nth (Z.to_nat x + j) (nth (Z.to_nat y + i) img []) d.
Proof.
  intros He Hc Hr x y x2 y2.
  assert (Hcrop : apply_crop cfg img = map (slice x x2) (slice y y2 img)).
  { unfold apply_crop. rewrite He. cbn [negb]. cbv zeta.
    unfold clamped_empty in Hc. fold x y in Hc. fold x2 y2 in Hc.
    fold x y. fold x2 y2. rewrite Hc. reflexivity. }
  unfold clamped_empty in Hc. fold x y in Hc. fold x2 y2 in Hc.
  apply orb_false_iff in Hc. destruct Hc as [Hx Hy].
  apply Z.leb_gt in Hx, Hy.
  assert (Hx0 : 0 <= x) by (unfold x; lia).
  assert (Hy0 : 0 <= y) by (unfold y; lia).
  assert (Hx2 : x2 <= frame_w img) by (unfold x2; lia).
  assert (Hy2 : y2 <= frame_h img) by (unfold y2; lia).
  assert (Hlen : List.length (slice y y2 img) = Z.to_nat (y2 - y)).
  { apply slice_length; unfold frame_h in Hy2; lia. }
  assert (Hrows : Forall (fun row => List.length row = List.length (hd [] img))
                         (slice y y2 img)).
  { unfold slice. apply Forall_firstn, Forall_skipn. exact Hr. }
  rewrite Hcrop. split; [|split].
  - unfold frame_h. rewrite length_map, Hlen. lia.
  - apply Forall_map. revert Hrows. apply Forall_impl. intros row Hrow.
    rewrite slice_length; unfold frame_w in Hx2; try lia.
  - intros i j d Hi Hj.
    assert (Hs : slice x x2 (@nil Pixel) = []).
    { unfold slice. rewrite skipn_nil, firstn_nil. reflexivity. }
    rewrite <- Hs at 1. rewrite map_nth.
    rewrite slice_nth by exact Hj. rewrite slice_nth by exact Hi.
    reflexivity.
Qed.

Lemma apply_crop_window_witness :
  frame_h (apply_crop (mkConfig 1000 5 true true "raw_images"
                                "enhanced_images" true 1 2 2 5)
                      Demo.frame4) = 2.
Proof.
  apply (apply_crop_window
           (mkConfig 1000 5 true true "raw_images" "enhanced_images"
                     true 1 2 2 5)
           Demo.frame4); [reflexivity|reflexivity|].
  repeat constructor.
Defined.

Lemma cycle_without_measurement_witness :
  exists r w',
    Demo.cycle source_config 20 3
               (mkWorld 0 [(900, "AT_CAPTURE" ++ CRLF);
                           (5000, "MEASURED W=1.5g T=20.0C H=50.0%" ++ CRLF)]
                        "" true true (repeat (Some Demo.frame4) 6) None [])
    = Some (Recorded, 3 + 1, w')
    /\ data_rows w' = ([] ++ [r])%list
    /\ row_sample_idx r = 3
    /\ row_weight_g r = None /\ row_temp_c r = None
    /\ row_humidity_pct r = None
    /\ tx w' = "" ++ "CWH".
Proof.
  destruct (wait_for_arduino 20
              (ser_write "C"
                 (mkWorld 0 [(900, "AT_CAPTURE" ++ CRLF);
                             (5000, "MEASURED W=1.5g T=20.0C H=50.0%" ++ CRLF)]
                          "" true true (repeat (Some Demo.frame4) 6) None []))
              "AT_CAPTURE" 15) as [[[] w1]|] eqn:E;
    try (vm_compute in E; discriminate E).
  apply (cycle_without_measurement source_config
           Demo.cvtColor Demo.cv_split Demo.cv_merge Demo.clahe_apply
           Demo.filter2D Demo.strftime Demo.os_path_join
           20 3
           (mkWorld 0 [(900, "AT_CAPTURE" ++ CRLF);
                       (5000, "MEASURED W=1.5g T=20.0C H=50.0%" ++ CRLF)]
                    "" true true (repeat (Some Demo.frame4) 6) None [])
           w1 E).
  - vm_compute in E. inversion E; subst w1. line_facts.
  - vm_compute. lia.
Defined.

